(** * Medicare hospital administration: storage layer and HTTP routes

    A shallow embedding of [server/storage.ts] (class [DatabaseStorage]),
    [server/routes.ts], [server/replitAuth.ts] ([isAuthenticated]) and the
    tables of [shared/schema.ts] they touch.

    Modelling conventions.
    - A table is the list of its rows, in insertion order.  The constraints
      declared in [shared/schema.ts] (primary keys, [unique], [references])
      are checked by the insert operations, which throw when one is violated,
      as PostgreSQL does.
    - Nullable columns are [option]s.  A field left out of an insert payload
      is [None] and takes the column default.
    - [gen_random_uuid()] and [new Date()] / [defaultNow()] are inputs of the
      operations ([uuid], [now]).
    - [decimal(10,2)] amounts and the JavaScript numbers computed from them
      are exact integers counted in hundredths of the currency unit.
    - A storage method is a computation [DB A]: it maps a store to the store
      it leaves behind and either a value or a thrown error.  There is no
      transaction: writes made before a throw stay. *)

From Stdlib Require Import List String Ascii ZArith NArith Arith Lia Bool Permutation.
Import ListNotations.

Local Open Scope string_scope.
Local Open Scope list_scope.

(** ** Errors, results and the database monad *)

Inductive DbError : Type :=
| UniqueViolation (constraint : string)
| ForeignKeyViolation (constraint : string).

Inductive result (A : Type) : Type :=
| Ok (a : A)
| Throw (e : DbError).

Arguments Ok {A} a.
Arguments Throw {A} e.

Definition timestamp := Z.
Definition money := Z.

(** JavaScript truthiness of an optional string: [undefined] and [""] are falsy. *)
Definition truthy (o : option string) : bool :=
  match o with
  | Some s => negb (s =? "")
  | None => false
  end.

(** SQL [eq(column, value)] on a nullable text column: NULL matches nothing. *)
Definition col_eq (c : option string) (v : string) : bool :=
  match c with
  | Some s => s =? v
  | None => false
  end.

Definition opt_default {A : Type} (d : A) (o : option A) : A :=
  match o with
  | Some a => a
  | None => d
  end.

(** ** Tables of [shared/schema.ts] *)

Module Schema.

Record User : Type := mkUser {
  user_id : string;
  user_email : option string;
  user_firstName : option string;
  user_lastName : option string;
  user_profileImageUrl : option string;
  user_role : option string;
  user_phone : option string;
  user_createdAt : option timestamp;
  user_updatedAt : option timestamp
}.

(** [UpsertUser = typeof users.$inferInsert]: every column is optional. *)
Record UpsertUser : Type := mkUpsertUser {
  uu_id : option string;
  uu_email : option string;
  uu_firstName : option string;
  uu_lastName : option string;
  uu_profileImageUrl : option string;
  uu_role : option string;
  uu_phone : option string
}.

Record Patient : Type := mkPatient {
  pat_id : string;
  pat_patientId : string;
  pat_userId : option string;
  pat_firstName : string;
  pat_lastName : string;
  pat_phone : string;
  pat_email : option string;
  pat_createdAt : option timestamp;
  pat_updatedAt : option timestamp
}.

(** [InsertPatient]: the insert schema omits [id], [createdAt], [updatedAt]. *)
Record InsertPatient : Type := mkInsertPatient {
  ip_patientId : string;
  ip_userId : option string;
  ip_firstName : string;
  ip_lastName : string;
  ip_phone : string;
  ip_email : option string
}.

Record Doctor : Type := mkDoctor {
  doc_id : string;
  doc_userId : option string;
  doc_specialization : string
}.

Record Appointment : Type := mkAppointment {
  apt_id : string;
  apt_patientId : string;
  apt_doctorId : string;
  apt_appointmentDate : Z;
  apt_appointmentTime : string;
  apt_status : option string;
  apt_notes : option string
}.

Record LabTest : Type := mkLabTest {
  lt_id : string;
  lt_patientId : string;
  lt_doctorId : option string;
  lt_testCatalogId : string;
  lt_status : option string;
  lt_createdAt : option timestamp
}.

Record LabTestCatalog : Type := mkLabTestCatalog {
  cat_id : string;
  cat_name : string;
  cat_code : string;
  cat_price : money
}.

Record Ward : Type := mkWard {
  ward_id : string;
  ward_name : string;
  ward_type : string;
  ward_capacity : Z;
  ward_chargePerDay : money
}.

Record Bed : Type := mkBed {
  bed_id : string;
  bed_wardId : string;
  bed_bedNumber : string;
  bed_status : option string
}.

Record Admission : Type := mkAdmission {
  adm_id : string;
  adm_patientId : string;
  adm_bedId : string;
  adm_doctorId : option string;
  adm_admissionDate : option timestamp;
  adm_dischargeDate : option timestamp;
  adm_diagnosis : option string;
  adm_notes : option string;
  adm_status : option string;
  adm_createdAt : option timestamp
}.

(** [InsertAdmission]: the insert schema omits [id] and [createdAt] only. *)
Record InsertAdmission : Type := mkInsertAdmission {
  ia_patientId : string;
  ia_bedId : string;
  ia_doctorId : option string;
  ia_admissionDate : option timestamp;
  ia_dischargeDate : option timestamp;
  ia_diagnosis : option string;
  ia_notes : option string;
  ia_status : option string
}.

Record BillItem : Type := mkBillItem {
  item_description : string;
  item_quantity : Z;
  item_rate : money;
  item_amount : money
}.

Record Bill : Type := mkBill {
  bill_id : string;
  bill_billNumber : string;
  bill_patientId : string;
  bill_items : list BillItem;
  bill_subtotal : money;
  bill_discount : option money;
  bill_tax : option money;
  bill_total : money;
  bill_paidAmount : option money;
  bill_paymentStatus : option string;
  bill_paymentMethod : option string;
  bill_createdAt : option timestamp;
  bill_updatedAt : option timestamp
}.

(** [InsertBill]: the insert schema omits [id], [createdAt], [updatedAt]. *)
Record InsertBill : Type := mkInsertBill {
  ib_billNumber : option string;
  ib_patientId : string;
  ib_items : list BillItem;
  ib_subtotal : money;
  ib_discount : option money;
  ib_tax : option money;
  ib_total : money;
  ib_paidAmount : option money;
  ib_paymentStatus : option string;
  ib_paymentMethod : option string
}.

(** The database: one list of rows per table. *)
Record Store : Type := mkStore {
  users : list User;
  patients : list Patient;
  doctors : list Doctor;
  appointments : list Appointment;
  labTestCatalog : list LabTestCatalog;
  labTests : list LabTest;
  wards : list Ward;
  beds : list Bed;
  admissions : list Admission;
  bills : list Bill
}.

Definition with_users (f : list User -> list User) (s : Store) : Store :=
  mkStore (f (users s)) (patients s) (doctors s) (appointments s)
          (labTestCatalog s) (labTests s) (wards s) (beds s) (admissions s) (bills s).

Definition with_patients (f : list Patient -> list Patient) (s : Store) : Store :=
  mkStore (users s) (f (patients s)) (doctors s) (appointments s)
          (labTestCatalog s) (labTests s) (wards s) (beds s) (admissions s) (bills s).

Definition with_beds (f : list Bed -> list Bed) (s : Store) : Store :=
  mkStore (users s) (patients s) (doctors s) (appointments s)
          (labTestCatalog s) (labTests s) (wards s) (f (beds s)) (admissions s) (bills s).

Definition with_admissions (f : list Admission -> list Admission) (s : Store) : Store :=
  mkStore (users s) (patients s) (doctors s) (appointments s)
          (labTestCatalog s) (labTests s) (wards s) (beds s) (f (admissions s)) (bills s).

Definition with_bills (f : list Bill -> list Bill) (s : Store) : Store :=
  mkStore (users s) (patients s) (doctors s) (appointments s)
          (labTestCatalog s) (labTests s) (wards s) (beds s) (admissions s) (f (bills s)).

End Schema.

Import Schema.

(** ** The database monad and the SQL statements used by the storage class *)

Module Db.

Definition DB (A : Type) : Type := Store -> Store * result A.

Definition ret {A : Type} (a : A) : DB A := fun s => (s, Ok a).

Definition throw {A : Type} (e : DbError) : DB A := fun s => (s, Throw e).

Definition bind {A B : Type} (m : DB A) (k : A -> DB B) : DB B :=
  fun s =>
    match m s with
    | (s', Ok a) => k a s'
    | (s', Throw e) => (s', Throw e)
    end.

Definition gets {A : Type} (f : Store -> A) : DB A := fun s => (s, Ok (f s)).

Definition modify (f : Store -> Store) : DB unit := fun s => (f s, Ok tt).

(** [UPDATE t SET ... WHERE p RETURNING *]: the new table and the updated rows. *)
Definition update_where {A : Type} (p : A -> bool) (f : A -> A) (t : list A) : list A :=
  map (fun r => if p r then f r else r) t.

Definition returning {A : Type} (p : A -> bool) (f : A -> A) (t : list A) : list A :=
  map f (filter p t).

(** [SELECT count( * ) FROM t]. *)
Definition count_rows {A : Type} (t : list A) : nat := List.length t.

(** Is there a row whose key column holds [k]? *)
Definition has_key {A : Type} (key : A -> string) (k : string) (t : list A) : bool :=
  existsb (fun r => key r =? k) t.

(** A nullable foreign key is checked only when it is set. *)
Definition fk_ok {A : Type} (key : A -> string) (ref : option string) (t : list A) : bool :=
  match ref with
  | Some k => has_key key k t
  | None => true
  end.

(** Stable insertion sort for [ORDER BY column DESC]; [lt y x] says that the
    column of [y] is strictly below that of [x]. *)
Fixpoint insert_desc {A : Type} (lt : A -> A -> bool) (x : A) (l : list A) : list A :=
  match l with
  | [] => [x]
  | y :: l' => if lt y x then x :: y :: l' else y :: insert_desc lt x l'
  end.

Definition order_by_desc {A : Type} (lt : A -> A -> bool) (l : list A) : list A :=
  fold_right (insert_desc lt) [] l.

(** Comparison of a nullable timestamp column; PostgreSQL puts NULL first in
    descending order, so NULL is the greatest value. *)
Definition ts_lt (a b : option timestamp) : bool :=
  match a, b with
  | Some x, Some y => (x <? y)%Z
  | Some _, None => true
  | None, _ => false
  end.

End Db.

Import Db.

Declare Scope db_scope.
Delimit Scope db_scope with db.
Notation "x <- m ;; k" := (bind m (fun x => k))
  (at level 100, m at next level, right associativity) : db_scope.
Notation "m ;;; k" := (bind m (fun _ => k))
  (at level 100, right associativity) : db_scope.
Local Open Scope db_scope.

(** ** Number formatting: [String(n)] and [padStart] *)

Module Js.

Definition digit_char (d : N) : ascii := ascii_of_N (48 + d).

Fixpoint digits_from (fuel : nat) (n : N) (acc : string) : string :=
  match fuel with
  | O => acc
  | S fuel' =>
      let acc' := String (digit_char (n mod 10)) acc in
      if (n / 10 =? 0)%N then acc' else digits_from fuel' (n / 10) acc'
  end.

(** [String(n)] for a non-negative integer [n]: its decimal digits.  A number
    has no more decimal digits than binary ones, which bounds the loop. *)
Definition String_of (n : N) : string := digits_from (S (N.size_nat n)) n "".

Fixpoint replicate (n : nat) (c : ascii) : string :=
  match n with
  | O => ""
  | S n' => String c (replicate n' c)
  end.

(** [s.padStart(len, c)] with a one-character filler: shorter strings are
    filled on the left, longer ones are returned as they are. *)
Definition padStart (len : nat) (c : ascii) (s : string) : string :=
  replicate (len - String.length s) c ++ s.

End Js.

Import Js.

(** ** [server/storage.ts]: class [DatabaseStorage] *)

Module Storage.

(** *** Users *)

Definition getUser (id : string) : DB (option User) :=
  gets (fun s => find (fun u => user_id u =? id) (users s)).

(** [email] is declared [unique()]: no other row may hold the same non-null
    email. *)
Definition email_taken (self : string) (email : option string) (t : list User) : bool :=
  match email with
  | Some e => existsb (fun u => negb (user_id u =? self) && col_eq (user_email u) e) t
  | None => false
  end.

(** In a [set] object drizzle leaves out the keys whose value is [undefined]:
    such a column keeps its old value. *)
Definition set_col {A : Type} (new old : option A) : option A :=
  match new with
  | Some v => Some v
  | None => old
  end.

Definition upsert_set (now : timestamp) (userData : UpsertUser) (u : User) : User :=
  mkUser (user_id u)
         (set_col (uu_email userData) (user_email u))
         (set_col (uu_firstName userData) (user_firstName u))
         (set_col (uu_lastName userData) (user_lastName u))
         (set_col (uu_profileImageUrl userData) (user_profileImageUrl u))
         (user_role u)
         (user_phone u)
         (user_createdAt u)
         (Some now).

Definition upsert_row (id : string) (now : timestamp) (userData : UpsertUser) : User :=
  mkUser id
         (uu_email userData)
         (uu_firstName userData)
         (uu_lastName userData)
         (uu_profileImageUrl userData)
         (Some (opt_default "patient" (uu_role userData)))
         (uu_phone userData)
         (Some now)
         (Some now).

Definition upsertUser (userData : UpsertUser) (uuid : string) (now : timestamp) : DB User :=
  let id := opt_default uuid (uu_id userData) in
  existing <- gets (fun s => find (fun u => user_id u =? id) (users s)) ;;
  match existing with
  | Some old =>
      let user := upsert_set now userData old in
      taken <- gets (fun s => email_taken id (user_email user) (users s)) ;;
      if taken then throw (UniqueViolation "users_email_unique")
      else
        modify (with_users (update_where (fun u => user_id u =? id) (upsert_set now userData))) ;;;
        ret user
  | None =>
      let user := upsert_row id now userData in
      taken <- gets (fun s => email_taken id (user_email user) (users s)) ;;
      if taken then throw (UniqueViolation "users_email_unique")
      else
        modify (with_users (fun t => t ++ [user])) ;;;
        ret user
  end.

Definition getAllUsers : DB (list User) :=
  gets (fun s =>
    order_by_desc (fun a b => ts_lt (user_createdAt a) (user_createdAt b)) (users s)).

Definition role_set (role : string) (now : timestamp) (u : User) : User :=
  mkUser (user_id u) (user_email u) (user_firstName u) (user_lastName u)
         (user_profileImageUrl u) (Some role) (user_phone u)
         (user_createdAt u) (Some now).

Definition updateUserRole (id role : string) (now : timestamp) : DB (option User) :=
  rows <- gets (fun s => returning (fun u => user_id u =? id) (role_set role now) (users s)) ;;
  modify (with_users (update_where (fun u => user_id u =? id) (role_set role now))) ;;;
  ret (hd_error rows).

(** *** Patients *)

Definition getPatient (id : string) : DB (option Patient) :=
  gets (fun s => find (fun p => pat_id p =? id) (patients s)).

(** [getPatients()] without a search string. *)
Definition getPatients : DB (list Patient) :=
  gets (fun s =>
    order_by_desc (fun a b => ts_lt (pat_createdAt a) (pat_createdAt b)) (patients s)).

(** [`PAT-${String(Number(count) + 1).padStart(5, "0")}`] *)
Definition patientCode (count : nat) : string :=
  "PAT-" ++ padStart 5 "0"%char (String_of (N.of_nat count + 1)).

Definition createPatient (patient : InsertPatient) (uuid : string) (now : timestamp)
  : DB Patient :=
  count <- gets (fun s => count_rows (patients s)) ;;
  let patientId := patientCode count in
  let newPatient :=
    mkPatient uuid patientId (ip_userId patient) (ip_firstName patient)
              (ip_lastName patient) (ip_phone patient) (ip_email patient)
              (Some now) (Some now) in
  dupId <- gets (fun s => has_key pat_id uuid (patients s)) ;;
  dupCode <- gets (fun s => has_key pat_patientId patientId (patients s)) ;;
  userOk <- gets (fun s => fk_ok user_id (ip_userId patient) (users s)) ;;
  if dupId then throw (UniqueViolation "patients_pkey")
  else if dupCode then throw (UniqueViolation "patients_patient_id_unique")
  else if negb userOk then throw (ForeignKeyViolation "patients_user_id_users_id_fk")
  else
    modify (with_patients (fun t => t ++ [newPatient])) ;;;
    ret newPatient.

(** The rows of other tables that reference patient [id] keep it from being
    deleted (the foreign keys have no [ON DELETE] action). *)
Definition patient_referenced (id : string) (s : Store) : bool :=
  has_key apt_patientId id (appointments s) ||
  has_key lt_patientId id (labTests s) ||
  has_key adm_patientId id (admissions s) ||
  has_key bill_patientId id (bills s).

Definition deletePatient (id : string) : DB unit :=
  referenced <- gets (patient_referenced id) ;;
  if referenced then throw (ForeignKeyViolation "patient_id_patients_id_fk")
  else modify (with_patients (filter (fun p => negb (pat_id p =? id)))).

(** *** Appointments *)

Record AppointmentView : Type := mkAppointmentView {
  av_row : Appointment;
  av_patient : option Patient;
  av_doctor : option (Doctor * option User)
}.

Definition doctor_with_user (s : Store) (doctorId : string) : option (Doctor * option User) :=
  match find (fun d => doc_id d =? doctorId) (doctors s) with
  | Some doctor =>
      let doctorUser :=
        if truthy (doc_userId doctor)
        then find (fun u => col_eq (doc_userId doctor) (user_id u)) (users s)
        else None in
      Some (doctor, doctorUser)
  | None => None
  end.

Definition getAppointments (status : option string) : DB (list AppointmentView) :=
  gets (fun s =>
    let by_date := fun a b => (apt_appointmentDate a <? apt_appointmentDate b)%Z in
    let appointmentList :=
      if truthy status
      then order_by_desc by_date
             (filter (fun a => col_eq (apt_status a) (opt_default "" status)) (appointments s))
      else order_by_desc by_date (appointments s) in
    map (fun apt =>
           mkAppointmentView apt
             (find (fun p => pat_id p =? apt_patientId apt) (patients s))
             (doctor_with_user s (apt_doctorId apt)))
        appointmentList).

(** *** Lab tests *)

Record LabTestView : Type := mkLabTestView {
  lv_row : LabTest;
  lv_patient : option Patient;
  lv_testCatalog : option LabTestCatalog;
  lv_doctor : option (Doctor * option User)
}.

Definition opt_doctor_with_user (s : Store) (doctorId : option string)
  : option (Doctor * option User) :=
  if truthy doctorId then doctor_with_user s (opt_default "" doctorId) else None.

Definition getLabTests (status : option string) : DB (list LabTestView) :=
  gets (fun s =>
    let by_created := fun a b => ts_lt (lt_createdAt a) (lt_createdAt b) in
    let testList :=
      if truthy status
      then order_by_desc by_created
             (filter (fun t => col_eq (lt_status t) (opt_default "" status)) (labTests s))
      else order_by_desc by_created (labTests s) in
    map (fun test =>
           mkLabTestView test
             (find (fun p => pat_id p =? lt_patientId test) (patients s))
             (find (fun c => cat_id c =? lt_testCatalogId test) (labTestCatalog s))
             (opt_doctor_with_user s (lt_doctorId test)))
        testList).

(** *** Beds *)

Definition bed_set_status (status : string) (b : Bed) : Bed :=
  mkBed (bed_id b) (bed_wardId b) (bed_bedNumber b) (Some status).

Definition updateBedStatus (id status : string) : DB (option Bed) :=
  rows <- gets (fun s => returning (fun b => bed_id b =? id) (bed_set_status status) (beds s)) ;;
  modify (with_beds (update_where (fun b => bed_id b =? id) (bed_set_status status))) ;;;
  ret (hd_error rows).

(** *** Admissions *)

Record AdmissionView : Type := mkAdmissionView {
  adv_row : Admission;
  adv_patient : option Patient;
  adv_bed : option (Bed * option Ward);
  adv_doctor : option (Doctor * option User)
}.

Definition bed_with_ward (s : Store) (bedId : string) : option (Bed * option Ward) :=
  match find (fun b => bed_id b =? bedId) (beds s) with
  | Some bed => Some (bed, find (fun w => ward_id w =? bed_wardId bed) (wards s))
  | None => None
  end.

Definition getAdmissions (status : option string) : DB (list AdmissionView) :=
  gets (fun s =>
    let by_date := fun a b => ts_lt (adm_admissionDate a) (adm_admissionDate b) in
    let admissionList :=
      if truthy status
      then order_by_desc by_date
             (filter (fun a => col_eq (adm_status a) (opt_default "" status)) (admissions s))
      else order_by_desc by_date (admissions s) in
    map (fun admission =>
           mkAdmissionView admission
             (find (fun p => pat_id p =? adm_patientId admission) (patients s))
             (bed_with_ward s (adm_bedId admission))
             (opt_doctor_with_user s (adm_doctorId admission)))
        admissionList).

(** The row that [INSERT INTO admissions VALUES (admission)] stores: the id is
    generated, and the columns left out take their defaults. *)
Definition admission_row (admission : InsertAdmission) (uuid : string) (now : timestamp)
  : Admission :=
  mkAdmission uuid
              (ia_patientId admission)
              (ia_bedId admission)
              (ia_doctorId admission)
              (Some (opt_default now (ia_admissionDate admission)))
              (ia_dischargeDate admission)
              (ia_diagnosis admission)
              (ia_notes admission)
              (Some (opt_default "admitted" (ia_status admission)))
              (Some now).

Definition insert_admission (row : Admission) : DB Admission :=
  dupId <- gets (fun s => has_key adm_id (adm_id row) (admissions s)) ;;
  patientOk <- gets (fun s => has_key pat_id (adm_patientId row) (patients s)) ;;
  bedOk <- gets (fun s => has_key bed_id (adm_bedId row) (beds s)) ;;
  doctorOk <- gets (fun s => fk_ok doc_id (adm_doctorId row) (doctors s)) ;;
  if dupId then throw (UniqueViolation "admissions_pkey")
  else if negb patientOk then throw (ForeignKeyViolation "admissions_patient_id_patients_id_fk")
  else if negb bedOk then throw (ForeignKeyViolation "admissions_bed_id_beds_id_fk")
  else if negb doctorOk then throw (ForeignKeyViolation "admissions_doctor_id_doctors_id_fk")
  else
    modify (with_admissions (fun t => t ++ [row])) ;;;
    ret row.

Definition createAdmission (admission : InsertAdmission) (uuid : string) (now : timestamp)
  : DB Admission :=
  newAdmission <- insert_admission (admission_row admission uuid now) ;;
  modify (with_beds (update_where (fun b => bed_id b =? ia_bedId admission)
                                  (bed_set_status "occupied"))) ;;;
  ret newAdmission.

Definition discharge_set (now : timestamp) (a : Admission) : Admission :=
  mkAdmission (adm_id a) (adm_patientId a) (adm_bedId a) (adm_doctorId a)
              (adm_admissionDate a) (Some now) (adm_diagnosis a) (adm_notes a)
              (Some "discharged") (adm_createdAt a).

Definition dischargePatient (id : string) (now : timestamp) : DB (option Admission) :=
  rows <- gets (fun s => returning (fun a => adm_id a =? id) (discharge_set now) (admissions s)) ;;
  modify (with_admissions (update_where (fun a => adm_id a =? id) (discharge_set now))) ;;;
  match rows with
  | admission :: _ =>
      modify (with_beds (update_where (fun b => bed_id b =? adm_bedId admission)
                                      (bed_set_status "available"))) ;;;
      ret (Some admission)
  | [] => ret None
  end.

(** *** Bills *)

Record BillView : Type := mkBillView {
  bv_row : Bill;
  bv_patient : option Patient
}.

Definition getBills (status : option string) : DB (list BillView) :=
  gets (fun s =>
    let by_created := fun a b => ts_lt (bill_createdAt a) (bill_createdAt b) in
    let billList :=
      if truthy status
      then order_by_desc by_created
             (filter (fun b => col_eq (bill_paymentStatus b) (opt_default "" status)) (bills s))
      else order_by_desc by_created (bills s) in
    map (fun bill =>
           mkBillView bill (find (fun p => pat_id p =? bill_patientId bill) (patients s)))
        billList).

(** [`INV-${String(Number(count) + 1).padStart(6, "0")}`] *)
Definition billNumberFor (count : nat) : string :=
  "INV-" ++ padStart 6 "0"%char (String_of (N.of_nat count + 1)).

Definition createBill (bill : InsertBill) (uuid : string) (now : timestamp) : DB Bill :=
  count <- gets (fun s => count_rows (bills s)) ;;
  let billNumber := billNumberFor count in
  let newBill :=
    mkBill uuid billNumber (ib_patientId bill) (ib_items bill) (ib_subtotal bill)
           (Some (opt_default 0%Z (ib_discount bill)))
           (Some (opt_default 0%Z (ib_tax bill)))
           (ib_total bill)
           (Some (opt_default 0%Z (ib_paidAmount bill)))
           (Some (opt_default "pending" (ib_paymentStatus bill)))
           (ib_paymentMethod bill)
           (Some now) (Some now) in
  dupId <- gets (fun s => has_key bill_id uuid (bills s)) ;;
  dupNumber <- gets (fun s => has_key bill_billNumber billNumber (bills s)) ;;
  patientOk <- gets (fun s => has_key pat_id (ib_patientId bill) (patients s)) ;;
  if dupId then throw (UniqueViolation "bills_pkey")
  else if dupNumber then throw (UniqueViolation "bills_bill_number_unique")
  else if negb patientOk then throw (ForeignKeyViolation "bills_patient_id_patients_id_fk")
  else
    modify (with_bills (fun t => t ++ [newBill])) ;;;
    ret newBill.

Definition payment_set (newPaidAmount : money) (newStatus method : string)
                       (now : timestamp) (b : Bill) : Bill :=
  mkBill (bill_id b) (bill_billNumber b) (bill_patientId b) (bill_items b)
         (bill_subtotal b) (bill_discount b) (bill_tax b) (bill_total b)
         (Some newPaidAmount) (Some newStatus) (Some method)
         (bill_createdAt b) (Some now).

Definition recordPayment (id : string) (amount : money) (method : string) (now : timestamp)
  : DB (option Bill) :=
  found <- gets (fun s => find (fun b => bill_id b =? id) (bills s)) ;;
  match found with
  | None => ret None
  | Some bill =>
      let newPaidAmount := (opt_default 0 (bill_paidAmount bill) + amount)%Z in
      let total := bill_total bill in
      let newStatus := if (newPaidAmount >=? total)%Z then "paid" else "partial" in
      rows <- gets (fun s => returning (fun b => bill_id b =? id)
                                       (payment_set newPaidAmount newStatus method now)
                                       (bills s)) ;;
      modify (with_bills (update_where (fun b => bill_id b =? id)
                                       (payment_set newPaidAmount newStatus method now))) ;;;
      ret (hd_error rows)
  end.

End Storage.

Import Storage.

(** ** [server/replitAuth.ts] and [server/routes.ts] *)

Module Routes.

(** What a request handler sees besides the store: the process environment,
    the session user that passport put on the request (if any), and the
    values the database would generate while serving the request. *)
Record Context : Type := mkContext {
  REPLIT_DEPLOYMENT_ID : option string;
  req_user : option User;
  gen_uuid : string;
  gen_now : timestamp
}.

Inductive Json : Type :=
| JError (error : string)
| JUser (u : option User)
| JUsers (l : list User)
| JPatient (p : option Patient)
| JPatients (l : list Patient)
| JAppointments (appointments : list AppointmentView) (total : nat)
| JLabTests (l : list LabTestView)
| JAdmissions (l : list AdmissionView)
| JAdmission (a : option Admission)
| JBills (l : list BillView)
| JBill (b : option Bill)
| JNothing.

Record Response : Type := mkResponse {
  res_status : nat;
  res_body : Json
}.

(** The protected endpoints of [registerRoutes] that work on the tables
    modelled here, with the parts of the request they read. *)
Inductive Endpoint : Type :=
| GET_auth_user
| GET_users
| PATCH_users_role (id role : string)
| GET_patients_list
| GET_patients_id (id : string)
| POST_patients (body : InsertPatient)
| DELETE_patients_id (id : string)
| GET_appointments (status : option string)
| GET_lab_tests (status : option string)
| GET_admissions (status : option string)
| POST_admissions (body : InsertAdmission)
| PATCH_admissions_discharge (id : string)
| GET_bills (status : option string)
| POST_bills (patientId : string) (items : list BillItem)
| POST_bills_payment (id : string) (amount : money) (paymentMethod : string).

Definition Handler : Type := Store -> Store * Response.

(** [try { const x = await m; res.status(code).json(x) } catch { res.status(500).json({error}) }] *)
Definition try_json {A : Type} (m : DB A) (code : nat) (json : A -> Json) (error : string)
  : Handler :=
  fun s =>
    match m s with
    | (s', Ok a) => (s', mkResponse code (json a))
    | (s', Throw _) => (s', mkResponse 500 (JError error))
    end.

(** [status !== "all" ? status : undefined] *)
Definition unless_all (status : option string) : option string :=
  match status with
  | Some s => if s =? "all" then None else Some s
  | None => None
  end.

(** [items.reduce((sum, item) => sum + item.amount, 0)] *)
Definition items_subtotal (items : list BillItem) : money :=
  fold_left (fun sum item => (sum + item_amount item)%Z) items 0%Z.

Definition bill_request (patientId : string) (items : list BillItem) : InsertBill :=
  let subtotal := items_subtotal items in
  mkInsertBill None patientId items subtotal None None subtotal None None None.

Definition handle (c : Context) (userId : string) (e : Endpoint) : Handler :=
  match e with
  | GET_auth_user =>
      try_json (getUser userId) 200 JUser "Failed to get user"
  | GET_users =>
      try_json getAllUsers 200 JUsers "Failed to get users"
  | PATCH_users_role id role =>
      try_json (updateUserRole id role (gen_now c)) 200 JUser "Failed to update user role"
  | GET_patients_list =>
      try_json getPatients 200 JPatients "Failed to get patients list"
  | GET_patients_id id =>
      fun s =>
        match getPatient id s with
        | (s', Ok None) => (s', mkResponse 404 (JError "Patient not found"))
        | (s', Ok (Some p)) => (s', mkResponse 200 (JPatient (Some p)))
        | (s', Throw _) => (s', mkResponse 500 (JError "Failed to get patient"))
        end
  | POST_patients body =>
      try_json (createPatient body (gen_uuid c) (gen_now c)) 201
               (fun p => JPatient (Some p)) "Failed to create patient"
  | DELETE_patients_id id =>
      try_json (deletePatient id) 204 (fun _ => JNothing) "Failed to delete patient"
  | GET_appointments status =>
      try_json (getAppointments (unless_all status)) 200
               (fun l => JAppointments l (List.length l)) "Failed to get appointments"
  | GET_lab_tests status =>
      try_json (getLabTests (unless_all status)) 200 JLabTests "Failed to get lab tests"
  | GET_admissions status =>
      try_json (getAdmissions status) 200 JAdmissions "Failed to get admissions"
  | POST_admissions body =>
      try_json (createAdmission body (gen_uuid c) (gen_now c)) 201
               (fun a => JAdmission (Some a)) "Failed to create admission"
  | PATCH_admissions_discharge id =>
      try_json (dischargePatient id (gen_now c)) 200 JAdmission "Failed to discharge patient"
  | GET_bills status =>
      try_json (getBills status) 200 JBills "Failed to get bills"
  | POST_bills patientId items =>
      try_json (createBill (bill_request patientId items) (gen_uuid c) (gen_now c)) 201
               (fun b => JBill (Some b)) "Failed to create bill"
  | POST_bills_payment id amount paymentMethod =>
      try_json (recordPayment id amount paymentMethod (gen_now c)) 200 JBill
               "Failed to record payment"
  end.

(** The middleware [isAuthenticated]: [next] is the rest of the chain, which
    reads [req.userId]. *)
Definition isAuthenticated (c : Context) (next : string -> Handler) : Handler :=
  if negb (truthy (REPLIT_DEPLOYMENT_ID c)) then next "demo-user"
  else
    match req_user c with
    | Some user => next (user_id user)
    | None => fun s => (s, mkResponse 401 (JError "Unauthorized"))
    end.

(** Every route above is registered as [app.METHOD(path, isAuthenticated, handler)]. *)
Definition serve (c : Context) (e : Endpoint) : Handler :=
  isAuthenticated c (fun userId => handle c userId e).

End Routes.

Import Routes.

(** ** Properties the specification states about stores *)

Module Invariants.

(** An admission that currently occupies bed [b]. *)
Definition admitted_on (b : string) (a : Admission) : bool :=
  (adm_bedId a =? b) && col_eq (adm_status a) "admitted".

Definition admitted_count (s : Store) (b : string) : nat :=
  List.length (filter (admitted_on b) (admissions s)).

(** A bed is [occupied] exactly when an [admitted] admission references it. *)
Definition bed_sync (s : Store) : Prop :=
  forall bed, In bed (beds s) ->
    (bed_status bed = Some "occupied" <->
     exists a, In a (admissions s) /\ adm_bedId a = bed_id bed /\
               adm_status a = Some "admitted").

(** At most one [admitted] admission references any bed. *)
Definition one_per_bed (s : Store) : Prop :=
  forall b, admitted_count s b <= 1.

(** Constraints PostgreSQL keeps on [admissions]: the primary key and the
    foreign key to [beds]. *)
Definition admissions_pk (s : Store) : Prop :=
  NoDup (map adm_id (admissions s)).

Definition admissions_bed_fk (s : Store) : Prop :=
  forall a, In a (admissions s) -> has_key bed_id (adm_bedId a) (beds s) = true.

Record admission_bed_invariant (s : Store) : Prop := mkInvariant {
  inv_sync : bed_sync s;
  inv_one : one_per_bed s;
  inv_pk : admissions_pk s;
  inv_fk : admissions_bed_fk s
}.

(** The store [createAdmission] leaves behind when the insert goes through. *)
Definition admitted_store (s : Store) (admission : InsertAdmission)
                          (uuid : string) (now : timestamp) : Store :=
  with_beds (update_where (fun b => bed_id b =? ia_bedId admission)
                          (bed_set_status "occupied"))
            (with_admissions (fun t => t ++ [admission_row admission uuid now]) s).

(** The store [dischargePatient] leaves behind when it finds admission [a]. *)
Definition discharged_store (s : Store) (a : Admission) (now : timestamp) : Store :=
  with_beds (update_where (fun b => bed_id b =? adm_bedId a)
                          (bed_set_status "available"))
            (with_admissions (update_where (fun r => adm_id r =? adm_id a)
                                           (discharge_set now)) s).




Definition is_digit (c : ascii) : bool :=
  (48 <=? N_of_ascii c)%N && (N_of_ascii c <=? 57)%N.

Fixpoint all_digits (s : string) : bool :=
  match s with
  | EmptyString => true
  | String c s' => is_digit c && all_digits s'
  end.

(** [prefix] followed by exactly [n] decimal digits, as the patterns
    [PAT-\d{5}] and [INV-\d{6}] require of a whole code. *)
Definition matches_code (prefix : string) (n : nat) (code : string) : bool :=
  String.prefix prefix code &&
  let digits := substring (String.length prefix) (String.length code - String.length prefix) code in
  Nat.eqb (String.length digits) n && all_digits digits.

(** The role stored for user [id], if the user exists. *)
Definition role_of (s : Store) (id : string) : option (option string) :=
  option_map user_role (find (fun u => user_id u =? id) (users s)).


(** The number a string of decimal digits denotes. *)
Fixpoint digits_value (acc : N) (s : string) : N :=
  match s with
  | EmptyString => acc
  | String c s' => digits_value (10 * acc + (N_of_ascii c - 48))%N s'
  end.

(** The number held by a code after its four-character prefix. *)
Definition code_number (code : string) : N :=
  digits_value 0%N (substring 4 (String.length code - 4) code).

(** Every patient code present was generated by [createPatient] in a run of
    creations without deletions: the codes are those of counts 0, 1, 2, ... *)
Definition sequential_codes (s : Store) : Prop :=
  map pat_patientId (patients s) =
  map patientCode (seq 0 (List.length (patients s))).

Definition sequential_numbers (s : Store) : Prop :=
  map bill_billNumber (bills s) =
  map billNumberFor (seq 0 (List.length (bills s))).

End Invariants.

Import Invariants.

(** ** Decision procedures for the invariants *)

Module Checks.

Definition bed_syncb (s : Store) : bool :=
  forallb (fun bed =>
             Bool.eqb (col_eq (bed_status bed) "occupied")
                      (existsb (admitted_on (bed_id bed)) (admissions s)))
          (beds s).

Definition one_per_bedb (s : Store) : bool :=
  forallb (fun a => Nat.leb (admitted_count s (adm_bedId a)) 1) (admissions s).

Fixpoint distinct (l : list string) : bool :=
  match l with
  | [] => true
  | x :: l' => negb (existsb (String.eqb x) l') && distinct l'
  end.

Definition admissions_bed_fkb (s : Store) : bool :=
  forallb (fun a => has_key bed_id (adm_bedId a) (beds s)) (admissions s).

Definition check_invariant (s : Store) : bool :=
  bed_syncb s && one_per_bedb s && distinct (map adm_id (admissions s)) &&
  admissions_bed_fkb s.

End Checks.

Import Checks.

(** ** Sample data *)

Module Sample.

Definition empty_store : Store := mkStore [] [] [] [] [] [] [] [] [] [].

Definition alice : Patient :=
  mkPatient "p1" "PAT-00001" None "Alice" "Ames" "555-0100" None (Some 1%Z) (Some 1%Z).

Definition bed1 : Bed := mkBed "b1" "w1" "G-01" (Some "available").
Definition bed2 : Bed := mkBed "b2" "w1" "G-02" (Some "occupied").

Definition stay1 : Admission :=
  mkAdmission "a1" "p1" "b2" None (Some 2%Z) None None None (Some "admitted") (Some 2%Z).

(** One patient, a free bed [b1], and bed [b2] occupied by admission [a1]. *)
Definition ward_store : Store :=
  mkStore [] [alice] [] [] [] [] [] [bed1; bed2] [stay1] [].

(** The request the wards page sends: no status, no dates. *)
Definition admit_b1 : InsertAdmission :=
  mkInsertAdmission "p1" "b1" None None None (Some "observation") None None.

(** A request that is well typed as [InsertAdmission] and sets the status. *)
Definition admit_b1_discharged : InsertAdmission :=
  mkInsertAdmission "p1" "b1" None None None None None (Some "discharged").



Definition consultation : BillItem := mkBillItem "Consultation" 2%Z 50000%Z 100000%Z.

(** A bill of 1000.00 on which nothing has been paid. *)
Definition bill1 : Bill :=
  mkBill "bill1" "INV-000001" "p1" [consultation] 100000%Z (Some 0%Z) (Some 0%Z) 100000%Z
         (Some 0%Z) (Some "pending") None (Some 3%Z) (Some 3%Z).

Definition billing_store : Store :=
  mkStore [] [alice] [] [] [] [] [] [] [] [bill1].


(** [n] patient rows numbered from [k]; the codes have the shape that
    [createPatient] generates. *)
Fixpoint numbered_patients (n : nat) (k : N) : list Patient :=
  match n with
  | O => []
  | S n' =>
      mkPatient ("p" ++ String_of k) ("PAT-" ++ padStart 5 "0"%char (String_of k))
                None "Pat" "Doe" "555-0000" None (Some 0%Z) (Some 0%Z)
      :: numbered_patients n' (k + 1)%N
  end.

(** A store holding 99999 patients, PAT-00001 to PAT-99999. *)
Definition crowded_store : Store :=
  mkStore [] (numbered_patients (N.to_nat 99999) 1%N) [] [] [] [] [] [] [] [].

Definition new_patient : InsertPatient :=
  mkInsertPatient "" None "Bob" "Bell" "555-0101" None.

Definition drew : Doctor := mkDoctor "d1" None "Cardiology".

Definition visit1 : Appointment :=
  mkAppointment "v1" "p1" "d1" 20260110%Z "09:00" (Some "scheduled") None.
Definition visit2 : Appointment :=
  mkAppointment "v2" "p1" "d1" 20260112%Z "10:30" (Some "cancelled") None.

Definition cbc : LabTestCatalog := mkLabTestCatalog "c1" "Complete blood count" "CBC" 45000%Z.
Definition test1 : LabTest := mkLabTest "t1" "p1" None "c1" (Some "pending") (Some 4%Z).

Definition stay0 : Admission :=
  mkAdmission "a0" "p1" "b1" None (Some 1%Z) (Some 2%Z) None None (Some "discharged")
              (Some 1%Z).

(** A store with rows in all four listed tables. *)
Definition clinic_store : Store :=
  mkStore [] [alice] [drew] [visit1; visit2] [cbc] [test1] [] [bed1; bed2]
          [stay0; stay1] [bill1].

Definition staff : User :=
  mkUser "u1" (Some "nurse@example.org") (Some "Nora") (Some "Nye") None
         (Some "nurse") None (Some 0%Z) (Some 0%Z).

Definition staff_store : Store := mkStore [staff] [] [] [] [] [] [] [] [] [].

(** What the OIDC callback passes to [upsertUser] for user [u1]. *)
Definition staff_login : UpsertUser :=
  mkUpsertUser (Some "u1") (Some "nora@example.org") (Some "Nora") (Some "Nye-Noor")
               (Some "https://example.org/nora.png") None None.

(** A deployed server serving a logged-in user. *)
Definition logged_in : Context := mkContext (Some "deployment-1") (Some staff) "a2" 7%Z.

(** A deployed server serving a request without a session. *)
Definition anonymous : Context := mkContext (Some "deployment-1") None "a2" 7%Z.

(** A server started without [REPLIT_DEPLOYMENT_ID], request without a session. *)
Definition demo_anonymous : Context := mkContext None None "a2" 7%Z.

End Sample.

(** ** More of [server/storage.ts], [server/replitAuth.ts] and the billing page *)

(** *** SQL pattern matching *)

Module Sql.

(** [LIKE]: [%] matches any run of characters, [_] any one character, and a
    backslash makes the character after it literal.  PostgreSQL rejects a
    pattern that ends in a lone backslash; here such a pattern matches
    nothing (the patterns built by [getPatients] never end that way). *)
Fixpoint like (p : string) : string -> bool :=
  match p with
  | EmptyString => fun s => match s with EmptyString => true | String _ _ => false end
  | String c p' =>
      if Ascii.eqb c "%" then
        fix star (s : string) : bool :=
          like p' s || match s with EmptyString => false | String _ s' => star s' end
      else if Ascii.eqb c "_" then
        fun s => match s with EmptyString => false | String _ s' => like p' s' end
      else if Ascii.eqb c "\" then
        match p' with
        | EmptyString => fun _ => false
        | String e p'' =>
            fun s => match s with
                     | EmptyString => false
                     | String x s' => Ascii.eqb e x && like p'' s'
                     end
        end
      else
        fun s => match s with
                 | EmptyString => false
                 | String x s' => Ascii.eqb c x && like p' s'
                 end
  end.

(** Lower case of the letters [A]-[Z]; other characters are kept. *)
Definition lower (c : ascii) : ascii :=
  let n := N_of_ascii c in
  if (65 <=? n)%N && (n <=? 90)%N then ascii_of_N (n + 32) else c.

Fixpoint lower_string (s : string) : string :=
  match s with
  | EmptyString => EmptyString
  | String c s' => String (lower c) (lower_string s')
  end.

(** [ILIKE]: [LIKE] without regard to case. *)
Definition ilike (column pattern : string) : bool :=
  like (lower_string pattern) (lower_string column).

(** Does the pattern end in a lone backslash? *)
Fixpoint dangling_escape (p : string) : bool :=
  match p with
  | EmptyString => false
  | String c p' =>
      if Ascii.eqb c "\" then
        match p' with
        | EmptyString => true
        | String _ p'' => dangling_escape p''
        end
      else dangling_escape p'
  end.

(** Ascending order through the descending insertion sort. *)
Definition order_by_asc {A : Type} (lt : A -> A -> bool) (l : list A) : list A :=
  order_by_desc (fun y x => lt x y) l.

End Sql.

Import Sql.

Module StorageMore.

(** *** Users *)

Definition getUserByEmail (email : string) : DB (option User) :=
  gets (fun s => find (fun u => col_eq (user_email u) email) (users s)).

(** *** Patients: [getPatients(search)] *)

Definition search_pattern (search : string) : string := ("%" ++ search ++ "%")%string.

Definition patient_matches (search : string) (p : Patient) : bool :=
  ilike (pat_firstName p) (search_pattern search) ||
  ilike (pat_lastName p) (search_pattern search) ||
  ilike (pat_patientId p) (search_pattern search) ||
  ilike (pat_phone p) (search_pattern search).

Definition getPatients_search (search : option string) : DB (list Patient) :=
  gets (fun s =>
    let by_created := fun a b => ts_lt (pat_createdAt a) (pat_createdAt b) in
    if truthy search
    then order_by_desc by_created
           (filter (patient_matches (opt_default "" search)) (patients s))
    else order_by_desc by_created (patients s)).

(** *** Wards and beds *)

Record InsertBed : Type := mkInsertBed {
  nb_wardId : string;
  nb_bedNumber : string;
  nb_status : option string
}.

Record BedView : Type := mkBedView {
  bdv_row : Bed;
  bdv_ward : option Ward;
  bdv_admission : option (Admission * option Patient)
}.

(** [ORDER BY bed_number] is taken as the order of character codes. *)
Definition getBeds (wardId : option string) : DB (list BedView) :=
  gets (fun s =>
    let by_number := fun a b => String.ltb (bed_bedNumber a) (bed_bedNumber b) in
    let bedList :=
      if truthy wardId
      then order_by_asc by_number
             (filter (fun b => bed_wardId b =? opt_default "" wardId) (beds s))
      else order_by_asc by_number (beds s) in
    map (fun bed =>
           let ward := find (fun w => ward_id w =? bed_wardId bed) (wards s) in
           let admission :=
             if col_eq (bed_status bed) "occupied"
             then match find (fun a => (adm_bedId a =? bed_id bed) &&
                                       col_eq (adm_status a) "admitted")
                             (admissions s) with
                  | Some activeAdmission =>
                      Some (activeAdmission,
                            find (fun p => pat_id p =? adm_patientId activeAdmission)
                                 (patients s))
                  | None => None
                  end
             else None in
           mkBedView bed ward admission)
        bedList).

Definition createBed (bed : InsertBed) (uuid : string) : DB Bed :=
  let newBed := mkBed uuid (nb_wardId bed) (nb_bedNumber bed)
                      (Some (opt_default "available" (nb_status bed))) in
  dupId <- gets (fun s => has_key bed_id uuid (beds s)) ;;
  wardOk <- gets (fun s => has_key ward_id (nb_wardId bed) (wards s)) ;;
  if dupId then throw (UniqueViolation "beds_pkey")
  else if negb wardOk then throw (ForeignKeyViolation "beds_ward_id_wards_id_fk")
  else
    modify (with_beds (fun t => t ++ [newBed])) ;;;
    ret newBed.

(** *** Dashboard *)

Record DashboardStats : Type := mkDashboardStats {
  totalPatients : nat;
  todayAppointments : nat;
  availableBeds : nat;
  monthlyRevenue : money
}.

(** [COALESCE(SUM(CAST(paid_amount AS DECIMAL)), 0)] over all bills: a NULL
    amount adds nothing. *)
Definition paid_sum (t : list Bill) : money :=
  fold_right (fun b acc => (opt_default 0 (bill_paidAmount b) + acc)%Z) 0%Z t.

(** [today] is the date of [new Date()], in the encoding of the
    [appointment_date] column. *)
Definition getDashboardStats (today : Z) : DB DashboardStats :=
  gets (fun s =>
    mkDashboardStats
      (count_rows (patients s))
      (count_rows (filter (fun a => (apt_appointmentDate a =? today)%Z) (appointments s)))
      (count_rows (filter (fun b => col_eq (bed_status b) "available") (beds s)))
      (paid_sum (bills s))).

End StorageMore.

Import StorageMore.

(** *** Sessions: the passport callbacks of [setupAuth] *)

Module Auth.

(** [passport.serializeUser((user, done) => done(null, user.id))] *)
Definition serializeUser (user : User) : string := user_id user.

(** [passport.deserializeUser(async (id, done) => done(null, await storage.getUser(id)))] *)
Definition deserializeUser (id : string) : DB (option User) := getUser id.

(** The context of a request that carries the session key [sid]; [getUser]
    does not throw, so the second branch is never taken. *)
Definition session_context (deployment : option string) (sid : string)
                           (uuid : string) (now : timestamp) (s : Store) : Context :=
  match deserializeUser sid s with
  | (_, Ok user) => mkContext deployment user uuid now
  | (_, Throw _) => mkContext deployment None uuid now
  end.

End Auth.

Import Auth.

(** *** [client/src/pages/billing.tsx] *)

Module BillingPage.







End BillingPage.

Import BillingPage.

(** *** Scenarios and key constraints used by the further properties *)

Module Scenario.


Definition patients_pk (s : Store) : Prop := NoDup (map pat_id (patients s)).
Definition beds_pk (s : Store) : Prop := NoDup (map bed_id (beds s)).
Definition users_pk (s : Store) : Prop := NoDup (map user_id (users s)).

(** The number of beds that belong to ward [w]. *)
Definition beds_in_ward (w : string) (s : Store) : nat :=
  List.length (filter (fun b => bed_wardId b =? w) (beds s)).

(** [mid] occurs in [s] when case is ignored. *)
Definition contains_ci (mid s : string) : Prop :=
  exists pre m post, s = (pre ++ m ++ post)%string /\ lower_string m = lower_string mid.

Definition plain_char (c : ascii) : bool :=
  negb (Ascii.eqb c "%") && negb (Ascii.eqb c "_") && negb (Ascii.eqb c "\").

(** A search string without the special characters of [LIKE]. *)
Fixpoint plain (s : string) : bool :=
  match s with
  | EmptyString => true
  | String c s' => plain_char c && plain s'
  end.

Fixpoint only_percent (s : string) : bool :=
  match s with
  | EmptyString => true
  | String c s' => Ascii.eqb c "%" && only_percent s'
  end.

(** No row sorts strictly above the row listed before it. *)
Fixpoint descending {A : Type} (lt : A -> A -> bool) (l : list A) : Prop :=
  match l with
  | [] => True
  | x :: l' => (forall y, In y l' -> lt x y = false) /\ descending lt l'
  end.

End Scenario.

Import Scenario.

(** *** More sample data *)

Module Sample2.

Definition general_ward : Ward := mkWard "w1" "General A" "general" 2%Z 150000%Z.

(** [Sample.ward_store] with its ward: capacity 2, two beds. *)
Definition full_ward_store : Store :=
  mkStore [] [Sample.alice] [] [] [] [] [general_ward] [Sample.bed1; Sample.bed2]
          [Sample.stay1] [].

Definition third_bed : InsertBed := mkInsertBed "w1" "G-03" None.

Definition bob : Patient :=
  mkPatient "p2" "PAT-00002" None "Bob" "Bell" "555-0101" None (Some 2%Z) (Some 2%Z).
Definition carol : Patient :=
  mkPatient "p3" "PAT-00003" None "Carol" "Cole" "555-0102" None (Some 3%Z) (Some 3%Z).

(** Three patients created one after the other; nothing references them. *)
Definition three_patients : Store :=
  mkStore [] [Sample.alice; bob; carol] [] [] [] [] [] [] [] [].

Definition john : Patient :=
  mkPatient "p4" "PAT-00001" None "John" "Smith" "555-0104" None (Some 1%Z) (Some 1%Z).
Definition jane : Patient :=
  mkPatient "p5" "PAT-00002" None "Jane" "Doe" "555-0105" None (Some 2%Z) (Some 2%Z).

Definition two_patients : Store :=
  mkStore [] [john; jane] [] [] [] [] [] [] [] [].


End Sample2.

Module Sample3.

(** A request for bed [b2], which admission [a1] occupies. *)
Definition admit_b2 : InsertAdmission :=
  mkInsertAdmission "p1" "b2" None None None None None None.

(** Bed [b1] was left by [a0] and is now occupied by [a2]. *)
Definition reoccupied : Store :=
  mkStore [] [Sample.alice] [] [] [] [] []
          [mkBed "b1" "w1" "G-01" (Some "occupied")]
          [Sample.stay0;
           mkAdmission "a2" "p1" "b1" None (Some 3%Z) None None None (Some "admitted")
                       (Some 3%Z)]
          [].

End Sample3.
(** ** Facts about tables *)

(** Unfolds the monad of a storage method down to matches on its steps. *)
Ltac db_run :=
  unfold bind, gets, modify, ret, throw, count_rows; cbv beta iota zeta.

Lemma filter_none {A : Type} (p : A -> bool) (t : list A) :
  (forall r, In r t -> p r = false) -> filter p t = [].
Proof.
  induction t as [|r t IH]; cbn; intros Hall; [reflexivity|].
  rewrite (Hall r) by (left; reflexivity).
  apply IH. intros r' Hin. apply Hall. right. assumption.
Qed.

Section Tables.

Context {A : Type}.
Variable key : A -> string.

Lemma has_key_true k (t : list A) :
  has_key key k t = true <-> exists r, In r t /\ key r = k.
Proof.
  unfold has_key. rewrite existsb_exists. split.
  - intros (r & Hin & Heq). exists r. split; [assumption|]. now apply String.eqb_eq.
  - intros (r & Hin & Heq). exists r. split; [assumption|]. now apply String.eqb_eq.
Qed.

Lemma has_key_false k (t : list A) :
  has_key key k t = false <-> forall r, In r t -> key r <> k.
Proof.
  split.
  - intros Hf r Hin Heq.
    assert (has_key key k t = true) by (apply has_key_true; eauto).
    congruence.
  - intros Hall. destruct (has_key key k t) eqn:E; [|reflexivity].
    apply has_key_true in E. destruct E as (r & Hin & Heq).
    exfalso. eapply Hall; eauto.
Qed.

Lemma find_key_none k (t : list A) :
  find (fun r => key r =? k) t = None <-> has_key key k t = false.
Proof.
  rewrite has_key_false. split.
  - intros Hnone r Hin Heq.
    pose proof (find_none _ _ Hnone r Hin) as Hneq. cbn in Hneq.
    apply String.eqb_neq in Hneq. contradiction.
  - intros Hall. destruct (find _ t) eqn:E; [|reflexivity].
    apply find_some in E. destruct E as [Hin Heq].
    apply String.eqb_eq in Heq. exfalso. eapply Hall; eauto.
Qed.

Lemma in_update_where (p : A -> bool) (f : A -> A) (t : list A) (x : A) :
  In x (update_where p f t) <->
  exists y, In y t /\ x = (if p y then f y else y).
Proof.
  unfold update_where. rewrite in_map_iff. split.
  - intros (y & Heq & Hin). exists y. split; [assumption|congruence].
  - intros (y & Hin & Heq). exists y. split; [congruence|assumption].
Qed.

Lemma update_where_none (p : A -> bool) (f : A -> A) (t : list A) :
  (forall r, In r t -> p r = false) -> update_where p f t = t.
Proof.
  intros Hall. unfold update_where.
  induction t as [|r t IH]; cbn; [reflexivity|].
  rewrite (Hall r) by (left; reflexivity).
  f_equal. apply IH. intros r' Hin. apply Hall. right. assumption.
Qed.

Lemma returning_none (p : A -> bool) (f : A -> A) (t : list A) :
  (forall r, In r t -> p r = false) -> returning p f t = [].
Proof.
  intros Hall. unfold returning. now rewrite filter_none.
Qed.

Lemma update_where_keys (p : A -> bool) (f : A -> A) (t : list A) :
  (forall r, key (f r) = key r) ->
  map key (update_where p f t) = map key t.
Proof.
  intros Hkey. unfold update_where. rewrite map_map.
  apply map_ext. intros r. destruct (p r); [apply Hkey|reflexivity].
Qed.

Lemma update_where_length (p : A -> bool) (f : A -> A) (t : list A) :
  List.length (update_where p f t) = List.length t.
Proof. unfold update_where. apply length_map. Qed.

(** Under a primary key two rows with the same key are the same row. *)
Lemma pk_same_row (t : list A) (a b : A) :
  NoDup (map key t) -> In a t -> In b t -> key a = key b -> a = b.
Proof.
  induction t as [|r t IH]; cbn; intros Hnd Ha Hb Heq; [contradiction|].
  inversion Hnd as [|? ? Hnotin Hnd']; subst.
  destruct Ha as [Ha|Ha], Hb as [Hb|Hb]; subst.
  - reflexivity.
  - exfalso. apply Hnotin. rewrite Heq. now apply in_map.
  - exfalso. apply Hnotin. rewrite <- Heq. now apply in_map.
  - now apply IH.
Qed.

Lemma pk_filter_single (t : list A) (a : A) :
  NoDup (map key t) -> In a t ->
  filter (fun r => key r =? key a) t = [a].
Proof.
  induction t as [|r t IH]; cbn; intros Hnd Ha; [contradiction|].
  inversion Hnd as [|? ? Hnotin Hnd']; subst.
  destruct Ha as [Ha|Ha].
  - subst r. rewrite String.eqb_refl. f_equal.
    apply filter_none. intros r Hr.
    apply String.eqb_neq. intros Heq.
    apply Hnotin. rewrite <- Heq. now apply in_map.
  - destruct (key r =? key a) eqn:E.
    + apply String.eqb_eq in E. exfalso. apply Hnotin.
      rewrite E. now apply in_map.
    + now apply IH.
Qed.

Lemma pk_insert (t : list A) (row : A) :
  NoDup (map key t) -> has_key key (key row) t = false ->
  NoDup (map key (t ++ [row])).
Proof.
  intros Hnd Hfresh. rewrite map_app. cbn.
  apply NoDup_app.
  - assumption.
  - constructor; [intros []|constructor].
  - intros k Hin [Hk|[]]. subst k.
    apply in_map_iff in Hin. destruct Hin as (r & Heq & Hin).
    rewrite has_key_false in Hfresh. eapply Hfresh; eauto.
Qed.

End Tables.

Lemma two_members {A : Type} (l : list A) (x y : A) :
  In x l -> In y l -> x <> y -> 2 <= List.length l.
Proof.
  destruct l as [|h [|h' t]]; cbn; intros Hx Hy Hneq.
  - contradiction.
  - destruct Hx as [Hx|[]], Hy as [Hy|[]]. congruence.
  - lia.
Qed.

Lemma col_eq_true (c : option string) (v : string) :
  col_eq c v = true <-> c = Some v.
Proof.
  destruct c as [s|]; cbn.
  - rewrite String.eqb_eq. split; congruence.
  - split; discriminate.
Qed.

Lemma admitted_on_true (b : string) (a : Admission) :
  admitted_on b a = true <-> adm_bedId a = b /\ adm_status a = Some "admitted".
Proof.
  unfold admitted_on. rewrite andb_true_iff, String.eqb_eq, col_eq_true. reflexivity.
Qed.

Lemma with_admissions_same (s : Store) (f : list Admission -> list Admission) :
  f (admissions s) = admissions s -> with_admissions f s = s.
Proof. unfold with_admissions. intros ->. destruct s; reflexivity. Qed.

(** ** Admissions and beds *)

Section Admit.

Variables (s : Store) (admission : InsertAdmission) (uuid : string) (now : timestamp).


Lemma createAdmission_ok :
  has_key adm_id uuid (admissions s) = false ->
  has_key pat_id (ia_patientId admission) (patients s) = true ->
  has_key bed_id (ia_bedId admission) (beds s) = true ->
  fk_ok doc_id (ia_doctorId admission) (doctors s) = true ->
  createAdmission admission uuid now s = ((admitted_store s admission uuid now), Ok (admission_row admission uuid now)).
Proof.
  intros Hid Hpat Hbed Hdoc.
  unfold createAdmission, insert_admission, bind, gets, modify, ret, throw.
  cbn. rewrite Hid, Hpat, Hbed, Hdoc. reflexivity.
Qed.

(** When a constraint of the insert is violated nothing is written. *)
Lemma createAdmission_throws :
  has_key adm_id uuid (admissions s) = true \/
  has_key pat_id (ia_patientId admission) (patients s) = false \/
  has_key bed_id (ia_bedId admission) (beds s) = false \/
  fk_ok doc_id (ia_doctorId admission) (doctors s) = false ->
  exists e, createAdmission admission uuid now s = (s, Throw e).
Proof.
  intros H.
  unfold createAdmission, insert_admission, bind, gets, modify, ret, throw. cbn.
  destruct (has_key adm_id uuid (admissions s)); [eauto|].
  destruct (has_key pat_id (ia_patientId admission) (patients s)); cbn; [|eauto].
  destruct (has_key bed_id (ia_bedId admission) (beds s)); cbn; [|eauto].
  destruct (fk_ok doc_id (ia_doctorId admission) (doctors s)); cbn; [|eauto].
  destruct H as [H|[H|[H|H]]]; discriminate.
Qed.

Hypothesis Hinv : admission_bed_invariant s.
Hypothesis Hfresh : has_key adm_id uuid (admissions s) = false.
Hypothesis Hbed : exists bed, In bed (beds s) /\ bed_id bed = ia_bedId admission /\
                              bed_status bed = Some "available".
Hypothesis Hstatus : opt_default "admitted" (ia_status admission) = "admitted".

Lemma available_bed_is_free : admitted_count s (ia_bedId admission) = 0.
Proof.
  destruct Hbed as (bed & Hin & Hid & Hav).
  unfold admitted_count.
  rewrite filter_none; [reflexivity|].
  intros a Ha. destruct (admitted_on (ia_bedId admission) a) eqn:E; [|reflexivity].
  apply admitted_on_true in E. destruct E as [Hb Hs].
  assert (bed_status bed = Some "occupied") as Hocc.
  { apply (inv_sync s Hinv bed Hin). exists a. rewrite Hid. auto. }
  rewrite Hav in Hocc. discriminate.
Qed.

Lemma row_admitted_on (b : string) :
  admitted_on b (admission_row admission uuid now) = (ia_bedId admission =? b).
Proof.
  unfold admitted_on, admission_row. cbn.
  rewrite Hstatus. cbn. apply andb_true_r.
Qed.

Lemma admitted_store_sync : bed_sync (admitted_store s admission uuid now).
Proof.
  intros bed' Hin'. cbn in Hin'.
  apply in_update_where in Hin'. destruct Hin' as (bed & Hin & ->).
  destruct (bed_id bed =? ia_bedId admission) eqn:E.
  - apply String.eqb_eq in E. cbn. split; [intros _|reflexivity].
    exists (admission_row admission uuid now). split; [apply in_or_app; right; left; reflexivity|].
    split; [cbn; congruence|]. cbn. now rewrite Hstatus.
  - apply String.eqb_neq in E. cbn.
    rewrite (inv_sync s Hinv bed Hin). split.
    + intros (a & Ha & Hb & Hs). exists a. split; [apply in_or_app; now left|auto].
    + intros (a & Ha & Hb & Hs). apply in_app_or in Ha. destruct Ha as [Ha|[Ha|[]]].
      * exists a. auto.
      * subst a. cbn in Hb. congruence.
Qed.

Lemma admitted_store_one : one_per_bed (admitted_store s admission uuid now).
Proof.
  intros b. unfold admitted_count. cbn.
  rewrite filter_app, length_app. cbn.
  rewrite row_admitted_on.
  destruct (ia_bedId admission =? b) eqn:E; cbn.
  - apply String.eqb_eq in E. subst b.
    pose proof available_bed_is_free as H0. unfold admitted_count in H0. lia.
  - pose proof (inv_one s Hinv b) as H1. unfold admitted_count in H1. lia.
Qed.

Lemma admitted_store_pk : admissions_pk (admitted_store s admission uuid now).
Proof.
  unfold admissions_pk. cbn.
  apply pk_insert; [apply (inv_pk s Hinv)|exact Hfresh].
Qed.

Lemma admitted_store_fk : admissions_bed_fk (admitted_store s admission uuid now).
Proof.
  assert (forall k, has_key bed_id k (beds s) = true ->
                    has_key bed_id k (beds (admitted_store s admission uuid now)) = true) as Hkeep.
  { intros k Hk. apply has_key_true in Hk. destruct Hk as (b & Hb & Hkb).
    apply has_key_true. cbn.
    exists (if bed_id b =? ia_bedId admission then bed_set_status "occupied" b else b).
    split; [apply in_update_where; eauto|].
    destruct (bed_id b =? ia_bedId admission); assumption. }
  intros a Ha. cbn in Ha. apply in_app_or in Ha. destruct Ha as [Ha|[Ha|[]]].
  - apply Hkeep. now apply (inv_fk s Hinv).
  - subst a. apply Hkeep. cbn.
    destruct Hbed as (bed & Hin & Hid & _). apply has_key_true. eauto.
Qed.

Lemma admitted_store_invariant : admission_bed_invariant (admitted_store s admission uuid now).
Proof.
  constructor.
  - apply admitted_store_sync.
  - apply admitted_store_one.
  - apply admitted_store_pk.
  - apply admitted_store_fk.
Qed.

Lemma admitted_store_bed_occupied :
  forall bed, In bed (beds (admitted_store s admission uuid now)) -> bed_id bed = ia_bedId admission ->
              bed_status bed = Some "occupied".
Proof.
  intros bed' Hin' Hid'. cbn in Hin'.
  apply in_update_where in Hin'. destruct Hin' as (bed & Hin & ->).
  destruct (bed_id bed =? ia_bedId admission) eqn:E; [reflexivity|].
  apply String.eqb_neq in E. contradiction.
Qed.

End Admit.

Section Discharge.

Variables (s : Store) (a0 : Admission) (now : timestamp).

Hypothesis Hinv : admission_bed_invariant s.
Hypothesis Hin0 : In a0 (admissions s).

Lemma dischargePatient_found :
  dischargePatient (adm_id a0) now s =
  (discharged_store s a0 now, Ok (Some (discharge_set now a0))).
Proof.
  unfold dischargePatient, bind, gets, modify, ret, returning. cbn.
  rewrite (pk_filter_single adm_id (admissions s) a0 (inv_pk s Hinv) Hin0).
  reflexivity.
Qed.

Lemma discharged_row_stored :
  In (discharge_set now a0) (admissions (discharged_store s a0 now)).
Proof.
  cbn. apply in_update_where. exists a0. split; [assumption|].
  now rewrite String.eqb_refl.
Qed.

Lemma discharged_store_bed_available :
  forall bed, In bed (beds (discharged_store s a0 now)) ->
              bed_id bed = adm_bedId a0 -> bed_status bed = Some "available".
Proof.
  intros bed' Hin' Hid'. cbn in Hin'.
  apply in_update_where in Hin'. destruct Hin' as (bed & Hin & ->).
  destruct (bed_id bed =? adm_bedId a0) eqn:E; [reflexivity|].
  apply String.eqb_neq in E. contradiction.
Qed.

Lemma discharged_store_bed_exists :
  exists bed, In bed (beds (discharged_store s a0 now)) /\ bed_id bed = adm_bedId a0.
Proof.
  pose proof (inv_fk s Hinv a0 Hin0) as Hk.
  apply has_key_true in Hk. destruct Hk as (b & Hb & Hkb).
  exists (bed_set_status "available" b). split; [|exact Hkb].
  cbn. apply in_update_where. exists b. split; [assumption|].
  rewrite Hkb. now rewrite String.eqb_refl.
Qed.

(** Discharging never turns a row into an [admitted] one. *)
Lemma discharge_keeps_admitted (b : string) (r : Admission) :
  admitted_on b (if adm_id r =? adm_id a0 then discharge_set now r else r) = true ->
  adm_id r <> adm_id a0 /\ admitted_on b r = true.
Proof.
  destruct (adm_id r =? adm_id a0) eqn:E.
  - unfold admitted_on. cbn. rewrite andb_false_r. discriminate.
  - apply String.eqb_neq in E. auto.
Qed.

Lemma discharged_count_le (b : string) (t : list Admission) :
  List.length (filter (admitted_on b)
                 (update_where (fun r => adm_id r =? adm_id a0) (discharge_set now) t))
  <= List.length (filter (admitted_on b) t).
Proof.
  induction t as [|r t IH]; cbn; [lia|].
  destruct (admitted_on b (if adm_id r =? adm_id a0 then discharge_set now r else r)) eqn:E.
  - apply discharge_keeps_admitted in E. destruct E as [_ E]. rewrite E. cbn.
    unfold update_where in IH. lia.
  - destruct (admitted_on b r); cbn; unfold update_where in IH; lia.
Qed.

Hypothesis Hadmitted : adm_status a0 = Some "admitted".

Lemma discharged_store_sync : bed_sync (discharged_store s a0 now).
Proof.
  intros bed' Hin'. cbn in Hin'.
  apply in_update_where in Hin'. destruct Hin' as (bed & Hin & ->).
  destruct (bed_id bed =? adm_bedId a0) eqn:E.
  - apply String.eqb_eq in E. cbn. split; [discriminate|].
    intros (a' & Ha' & Hb' & Hs'). exfalso.
    cbn in Ha'. apply in_update_where in Ha'. destruct Ha' as (a & Ha & ->).
    assert (admitted_on (adm_bedId a0)
              (if adm_id a =? adm_id a0 then discharge_set now a else a) = true) as Hon.
    { apply admitted_on_true. split; [congruence|assumption]. }
    apply discharge_keeps_admitted in Hon. destruct Hon as [Hne Hon].
    assert (a <> a0) as Hneq by congruence.
    assert (admitted_on (adm_bedId a0) a0 = true) as Hon0.
    { apply admitted_on_true. auto. }
    pose proof (inv_one s Hinv (adm_bedId a0)) as Hone. unfold admitted_count in Hone.
    pose proof (two_members (filter (admitted_on (adm_bedId a0)) (admissions s)) a a0) as Htwo.
    assert (2 <= List.length (filter (admitted_on (adm_bedId a0)) (admissions s))).
    { apply Htwo; [apply filter_In; auto|apply filter_In; auto|assumption]. }
    lia.
  - apply String.eqb_neq in E.
    rewrite (inv_sync s Hinv bed Hin). cbn. split.
    + intros (a & Ha & Hb & Hs).
      exists a. split; [|auto].
      apply in_update_where. exists a. split; [assumption|].
      destruct (adm_id a =? adm_id a0) eqn:Ea; [|reflexivity].
      apply String.eqb_eq in Ea.
      assert (a = a0) as ->.
      { apply (pk_same_row adm_id (admissions s)); auto. apply (inv_pk s Hinv). }
      congruence.
    + intros (a' & Ha' & Hb' & Hs').
      apply in_update_where in Ha'. destruct Ha' as (a & Ha & ->).
      destruct (adm_id a =? adm_id a0); [cbn in Hs'; discriminate|].
      exists a. auto.
Qed.

Lemma discharged_store_invariant : admission_bed_invariant (discharged_store s a0 now).
Proof.
  constructor.
  - apply discharged_store_sync.
  - intros b. unfold admitted_count. cbn.
    pose proof (discharged_count_le b (admissions s)) as Hle.
    pose proof (inv_one s Hinv b) as Hone. unfold admitted_count in Hone. lia.
  - unfold admissions_pk. cbn.
    rewrite (update_where_keys adm_id); [apply (inv_pk s Hinv)|reflexivity].
  - intros a' Ha'. cbn in Ha'. apply in_update_where in Ha'.
    destruct Ha' as (a & Ha & ->).
    assert (has_key bed_id (adm_bedId a) (beds s) = true) as Hk
      by now apply (inv_fk s Hinv).
    apply has_key_true in Hk. destruct Hk as (b & Hb & Hkb).
    apply has_key_true. cbn.
    exists (if bed_id b =? adm_bedId a0 then bed_set_status "available" b else b).
    split; [apply in_update_where; eauto|].
    destruct (adm_id a =? adm_id a0), (bed_id b =? adm_bedId a0); cbn; assumption.
Qed.

End Discharge.

(** ** Soundness of the decision procedures *)

Lemma distinct_NoDup (l : list string) : distinct l = true -> NoDup l.
Proof.
  induction l as [|x l IH]; cbn; intros H; [constructor|].
  apply andb_true_iff in H. destruct H as [Hx Hl].
  constructor; [|now apply IH].
  intros Hin. apply negb_true_iff in Hx.
  assert (existsb (String.eqb x) l = true) as Hex.
  { apply existsb_exists. exists x. split; [assumption|apply String.eqb_refl]. }
  congruence.
Qed.

Lemma bed_syncb_sound (s : Store) : bed_syncb s = true -> bed_sync s.
Proof.
  unfold bed_syncb. rewrite forallb_forall. intros H bed Hin.
  specialize (H bed Hin). apply eqb_prop in H.
  rewrite <- col_eq_true, H, existsb_exists. split.
  - intros (a & Ha & Hon). apply admitted_on_true in Hon. exists a. tauto.
  - intros (a & Ha & Hb & Hs). exists a. split; [assumption|].
    apply admitted_on_true. auto.
Qed.

Lemma one_per_bedb_sound (s : Store) : one_per_bedb s = true -> one_per_bed s.
Proof.
  unfold one_per_bedb. rewrite forallb_forall. intros H b.
  unfold admitted_count.
  destruct (filter (admitted_on b) (admissions s)) as [|a l] eqn:E; [cbn; lia|].
  assert (In a (filter (admitted_on b) (admissions s))) as Ha
    by (rewrite E; left; reflexivity).
  apply filter_In in Ha. destruct Ha as [Ha Hon].
  apply admitted_on_true in Hon. destruct Hon as [Hb _].
  specialize (H a Ha). apply Nat.leb_le in H.
  unfold admitted_count in H. rewrite Hb, E in H. exact H.
Qed.

Lemma check_invariant_sound (s : Store) :
  check_invariant s = true -> admission_bed_invariant s.
Proof.
  unfold check_invariant. rewrite !andb_true_iff.
  intros [[[Hsync Hone] Hpk] Hfk]. constructor.
  - now apply bed_syncb_sound.
  - now apply one_per_bedb_sound.
  - now apply distinct_NoDup.
  - unfold admissions_bed_fkb in Hfk. rewrite forallb_forall in Hfk. exact Hfk.
Qed.

(** ** Claims on admissions *)

(** C1 (amended).  In every store where a bed is [occupied] exactly when an
    [admitted] admission references it, where no bed has two such admissions,
    and where the key constraints of [admissions] hold:
    - [createAdmission] on an existing [available] bed, with a request that
      leaves the status at its default or sets it to [admitted], keeps the
      invariant; when the insert passes its constraints (fresh id, existing
      patient, existing doctor if one is given) it succeeds, the new
      admission is stored with status [admitted], its bed is [occupied], and
      it is the only admitted admission of that bed;
    - [dischargePatient] on an existing [admitted] admission succeeds; the
      admission is stored with status [discharged] and [dischargeDate = now],
      its bed is [available], and the invariant holds afterwards. *)
Theorem admission_bed_sync_preserved (s : Store) :
  admission_bed_invariant s ->
  (forall admission uuid now,
      has_key adm_id uuid (admissions s) = false ->
      has_key pat_id (ia_patientId admission) (patients s) = true ->
      fk_ok doc_id (ia_doctorId admission) (doctors s) = true ->
      (exists bed, In bed (beds s) /\ bed_id bed = ia_bedId admission /\
                   bed_status bed = Some "available") ->
      opt_default "admitted" (ia_status admission) = "admitted" ->
      exists s' adm,
        createAdmission admission uuid now s = (s', Ok adm) /\
        In adm (admissions s') /\
        adm_id adm = uuid /\
        adm_bedId adm = ia_bedId admission /\
        adm_status adm = Some "admitted" /\
        (exists bed, In bed (beds s') /\ bed_id bed = adm_bedId adm) /\
        (forall bed, In bed (beds s') -> bed_id bed = adm_bedId adm ->
                     bed_status bed = Some "occupied") /\
        admitted_count s' (adm_bedId adm) = 1 /\
        admission_bed_invariant s') /\
  (forall admission uuid now,
      (exists bed, In bed (beds s) /\ bed_id bed = ia_bedId admission /\
                   bed_status bed = Some "available") ->
      opt_default "admitted" (ia_status admission) = "admitted" ->
      admission_bed_invariant (fst (createAdmission admission uuid now s))) /\
  (forall a0 now,
      In a0 (admissions s) ->
      adm_status a0 = Some "admitted" ->
      exists s' adm,
        dischargePatient (adm_id a0) now s = (s', Ok (Some adm)) /\
        In adm (admissions s') /\
        adm_id adm = adm_id a0 /\
        adm_bedId adm = adm_bedId a0 /\
        adm_status adm = Some "discharged" /\
        adm_dischargeDate adm = Some now /\
        (exists bed, In bed (beds s') /\ bed_id bed = adm_bedId adm) /\
        (forall bed, In bed (beds s') -> bed_id bed = adm_bedId adm ->
                     bed_status bed = Some "available") /\
        admitted_count s' (adm_bedId adm) = 0 /\
        admission_bed_invariant s').
Proof.
  intros Hinv. split; [|split].
  - intros admission uuid now Hfresh Hpat Hdoc Hbed Hstatus.
    assert (has_key bed_id (ia_bedId admission) (beds s) = true) as Hkey.
    { destruct Hbed as (bed & Hin & Hid & _). apply has_key_true. eauto. }
    exists (admitted_store s admission uuid now), (admission_row admission uuid now).
    split; [now apply createAdmission_ok|].
    split; [cbn; apply in_or_app; right; left; reflexivity|].
    split; [reflexivity|]. split; [reflexivity|].
    split; [cbn; now rewrite Hstatus|].
    split.
    { destruct Hbed as (bed & Hin & Hid & _).
      exists (bed_set_status "occupied" bed). split; [|exact Hid].
      cbn. apply in_update_where. exists bed. split; [assumption|].
      rewrite Hid. now rewrite String.eqb_refl. }
    split; [now apply admitted_store_bed_occupied|].
    split.
    { unfold admitted_count. cbn. rewrite filter_app, length_app. cbn.
      rewrite (row_admitted_on admission uuid now Hstatus), String.eqb_refl. cbn.
      pose proof (available_bed_is_free s admission Hinv Hbed) as H0.
      unfold admitted_count in H0. lia. }
    now apply admitted_store_invariant.
  - intros admission uuid now Hbed Hstatus.
    destruct (has_key adm_id uuid (admissions s)) eqn:Hid;
      [|destruct (has_key pat_id (ia_patientId admission) (patients s)) eqn:Hpat;
        [destruct (fk_ok doc_id (ia_doctorId admission) (doctors s)) eqn:Hdoc|]].
    + destruct (createAdmission_throws s admission uuid now) as (e & ->); [tauto|].
      exact Hinv.
    + assert (has_key bed_id (ia_bedId admission) (beds s) = true) as Hkey.
      { destruct Hbed as (bed & Hin & Hb & _). apply has_key_true. eauto. }
      rewrite (createAdmission_ok s admission uuid now Hid Hpat Hkey Hdoc).
      now apply admitted_store_invariant.
    + destruct (createAdmission_throws s admission uuid now) as (e & ->); [tauto|].
      exact Hinv.
    + destruct (createAdmission_throws s admission uuid now) as (e & ->); [tauto|].
      exact Hinv.
  - intros a0 now Hin0 Hadm.
    exists (discharged_store s a0 now), (discharge_set now a0).
    cbn [adm_bedId adm_id adm_status adm_dischargeDate discharge_set].
    split; [now apply dischargePatient_found|].
    split; [now apply discharged_row_stored|].
    split; [reflexivity|]. split; [reflexivity|].
    split; [reflexivity|]. split; [reflexivity|].
    split; [now apply discharged_store_bed_exists|].
    split; [now apply discharged_store_bed_available|].
    split; [|now apply discharged_store_invariant].
    assert (admitted_count (discharged_store s a0 now) (adm_bedId a0) = 0); [|assumption].
    pose proof (discharged_store_sync s a0 now Hinv Hin0 Hadm) as Hsync.
    destruct (discharged_store_bed_exists s a0 now Hinv Hin0) as (bed & Hb & Hid).
    pose proof (discharged_store_bed_available s a0 now bed Hb Hid) as Hav.
    unfold admitted_count. rewrite filter_none; [reflexivity|].
    intros a Ha. destruct (admitted_on (adm_bedId a0) a) eqn:E; [|reflexivity].
    apply admitted_on_true in E. destruct E as [Hba Hsa].
    assert (bed_status bed = Some "occupied") as Hocc.
    { apply (Hsync bed Hb). exists a. rewrite Hid. auto. }
    rewrite Hav in Hocc. discriminate.
Qed.

Lemma admission_bed_sync_witness :
  (exists s' adm,
      createAdmission Sample.admit_b1 "a2" 7%Z Sample.ward_store = (s', Ok adm) /\
      adm_status adm = Some "admitted" /\ admission_bed_invariant s') /\
  (exists s' adm,
      dischargePatient "a1" 9%Z Sample.ward_store = (s', Ok (Some adm)) /\
      adm_status adm = Some "discharged" /\ admission_bed_invariant s').
Proof.
  assert (admission_bed_invariant Sample.ward_store) as Hinv
    by (apply check_invariant_sound; vm_compute; reflexivity).
  destruct (admission_bed_sync_preserved Sample.ward_store Hinv) as (Hadmit & _ & Hdis).
  split.
  - destruct (Hadmit Sample.admit_b1 "a2" 7%Z) as (s' & adm & H).
    + vm_compute; reflexivity.
    + vm_compute; reflexivity.
    + vm_compute; reflexivity.
    + exists Sample.bed1. split; [left; reflexivity|]. split; reflexivity.
    + vm_compute; reflexivity.
    + exists s', adm. tauto.
  - destruct (Hdis Sample.stay1 9%Z) as (s' & adm & H).
    + left; reflexivity.
    + reflexivity.
    + exists s', adm. tauto.
Defined.

(** The claim C1 as stated fails: a request that is a well-typed
    [InsertAdmission] may set [status], and [createAdmission] stores it while
    marking the bed [occupied]. *)
Lemma createAdmission_status_counterexample :
  admission_bed_invariant Sample.ward_store /\
  In Sample.bed1 (beds Sample.ward_store) /\
  bed_id Sample.bed1 = ia_bedId Sample.admit_b1_discharged /\
  bed_status Sample.bed1 = Some "available" /\
  exists s' adm,
    createAdmission Sample.admit_b1_discharged "a2" 7%Z Sample.ward_store = (s', Ok adm) /\
    adm_status adm <> Some "admitted" /\
    ~ bed_sync s'.
Proof.
  split; [apply check_invariant_sound; vm_compute; reflexivity|].
  split; [left; reflexivity|]. split; [reflexivity|]. split; [reflexivity|].
  eexists. eexists. split; [vm_compute; reflexivity|].
  split; [discriminate|].
  intros Hsync.
  specialize (Hsync (mkBed "b1" "w1" "G-01" (Some "occupied"))).
  destruct Hsync as [Hocc _]; [left; reflexivity|].
  destruct (Hocc eq_refl) as (a & Ha & Hb & Hs).
  cbn in Ha. destruct Ha as [<-|[<-|[]]]; cbn in Hb, Hs; discriminate.
Qed.

(** C6.  Discharging an admission id that is not in the store returns the
    empty result without throwing, and the store is left exactly as it was
    (so no bed changes status); the route answers 200 with an empty body. *)
Theorem dischargePatient_missing (s : Store) (id : string) (now : timestamp) :
  (forall a, In a (admissions s) -> adm_id a <> id) ->
  dischargePatient id now s = (s, Ok None) /\
  forall c userId,
    handle c userId (PATCH_admissions_discharge id) s = (s, mkResponse 200 (JAdmission None)).
Proof.
  intros Hmiss.
  assert (forall r, In r (admissions s) -> (adm_id r =? id) = false) as Hno.
  { intros r Hr. apply String.eqb_neq. now apply Hmiss. }
  assert (forall now', dischargePatient id now' s = (s, Ok None)) as Hrun.
  { intros now'. unfold dischargePatient, bind, gets, modify, ret. cbn.
    rewrite returning_none by assumption.
    rewrite with_admissions_same; [reflexivity|].
    now apply update_where_none. }
  split; [apply Hrun|].
  intros c userId. unfold handle, try_json. now rewrite Hrun.
Qed.

Lemma dischargePatient_missing_witness :
  dischargePatient "a7" 9%Z Sample.ward_store = (Sample.ward_store, Ok None).
Proof.
  apply (dischargePatient_missing Sample.ward_store "a7" 9%Z).
  intros a [<-|[]]. cbn. discriminate.
Defined.




(** ** Billing *)

Section Returning.

Context {A : Type}.
Variables (p : A -> bool) (f : A -> A).

Lemma hd_returning (t : list A) :
  hd_error (returning p f t) = option_map f (find p t).
Proof.
  unfold returning. induction t as [|r t IH]; cbn; [reflexivity|].
  destruct (p r); cbn; [reflexivity|exact IH].
Qed.

Lemma find_update_where (t : list A) :
  (forall r, p (f r) = p r) ->
  find p (update_where p f t) = option_map f (find p t).
Proof.
  intros Hp. unfold update_where. induction t as [|r t IH]; cbn; [reflexivity|].
  destruct (p r) eqn:E.
  - rewrite Hp, E. reflexivity.
  - rewrite E. exact IH.
Qed.

End Returning.





(** Total 1000.00: a payment of 400.00 gives 400.00 [partial], a further
    600.00 gives 1000.00 [paid]. *)
Example recordPayment_two_payments :
  exists s1 b1 s2 b2,
    recordPayment "bill1" 40000%Z "cash" 9%Z Sample.billing_store = (s1, Ok (Some b1)) /\
    bill_paidAmount b1 = Some 40000%Z /\ bill_paymentStatus b1 = Some "partial" /\
    recordPayment "bill1" 60000%Z "card" 10%Z s1 = (s2, Ok (Some b2)) /\
    bill_paidAmount b2 = Some 100000%Z /\ bill_paymentStatus b2 = Some "paid".
Proof.
  do 4 eexists.
  split; [vm_compute; reflexivity|]. split; [reflexivity|]. split; [reflexivity|].
  split; [vm_compute; reflexivity|]. split; reflexivity.
Qed.










(** ** Generated identifiers *)

Lemma append_assoc (a b c : string) : ((a ++ b) ++ c = a ++ (b ++ c))%string.
Proof. induction a as [|x a IH]; cbn; [reflexivity|now rewrite IH]. Qed.

Lemma length_append (a b : string) :
  String.length (a ++ b) = String.length a + String.length b.
Proof. induction a as [|x a IH]; cbn; [reflexivity|now rewrite IH]. Qed.

Lemma substring_all (s : string) : substring 0 (String.length s) s = s.
Proof. induction s as [|x s IH]; cbn; [reflexivity|now rewrite IH]. Qed.

Lemma length_replicate (n : nat) (c : ascii) : String.length (replicate n c) = n.
Proof. induction n as [|n IH]; cbn; [reflexivity|now rewrite IH]. Qed.

Lemma all_digits_append (a b : string) :
  all_digits (a ++ b) = all_digits a && all_digits b.
Proof.
  induction a as [|x a IH]; cbn; [reflexivity|].
  now rewrite IH, andb_assoc.
Qed.

Lemma all_digits_zeros (n : nat) : all_digits (replicate n "0"%char) = true.
Proof. induction n as [|n IH]; cbn; [reflexivity|exact IH]. Qed.

Lemma digits_value_append (a b : string) (acc : N) :
  digits_value acc (a ++ b) = digits_value (digits_value acc a) b.
Proof.
  revert acc. induction a as [|x a IH]; intros acc; cbn; [reflexivity|apply IH].
Qed.

Lemma digits_value_zeros (n : nat) : digits_value 0%N (replicate n "0"%char) = 0%N.
Proof. induction n as [|n IH]; cbn; [reflexivity|exact IH]. Qed.

Lemma below_ten (d : N) :
  (d < 10)%N ->
  d = 0%N \/ d = 1%N \/ d = 2%N \/ d = 3%N \/ d = 4%N \/
  d = 5%N \/ d = 6%N \/ d = 7%N \/ d = 8%N \/ d = 9%N.
Proof. lia. Qed.

Lemma digit_char_value (d : N) :
  (d < 10)%N -> (N_of_ascii (digit_char d) - 48 = d)%N.
Proof.
  intros H. apply below_ten in H.
  repeat (destruct H as [->|H]; [reflexivity|]). subst d. reflexivity.
Qed.

Lemma digit_char_is_digit (d : N) :
  (d < 10)%N -> is_digit (digit_char d) = true.
Proof.
  intros H. apply below_ten in H.
  repeat (destruct H as [->|H]; [reflexivity|]). subst d. reflexivity.
Qed.

Lemma mod_ten_small (n : N) : (n mod 10 < 10)%N.
Proof. apply N.mod_lt. discriminate. Qed.

Lemma digits_from_acc (fuel : nat) (n : N) (acc : string) :
  digits_from fuel n acc = (digits_from fuel n "" ++ acc)%string.
Proof.
  revert n acc. induction fuel as [|fuel IH]; intros n acc; cbn; [reflexivity|].
  destruct (n / 10 =? 0)%N; [reflexivity|].
  rewrite IH. rewrite (IH _ (String _ "")).
  rewrite append_assoc. reflexivity.
Qed.

Lemma digits_from_all_digits (fuel : nat) (n : N) (acc : string) :
  all_digits acc = true -> all_digits (digits_from fuel n acc) = true.
Proof.
  revert n acc. induction fuel as [|fuel IH]; intros n acc Hacc; cbn; [exact Hacc|].
  assert (all_digits (String (digit_char (n mod 10)) acc) = true) as Hacc'.
  { cbn [all_digits]. rewrite digit_char_is_digit by apply mod_ten_small. exact Hacc. }
  destruct (n / 10 =? 0)%N; [exact Hacc'|]. now apply IH.
Qed.

(** With enough fuel the digits denote the number they were printed from. *)
Lemma div_ten_halves (n P : N) : (n < 2 * P)%N -> (n / 10 < P)%N.
Proof.
  intros Hn.
  pose proof (N.div_mod' n 10) as Hdm.
  remember (n / 10)%N as q. remember (n mod 10)%N as r. lia.
Qed.

Lemma div_ten_tenth (n P : N) : (n < 10 * P)%N -> (n / 10 < P)%N.
Proof.
  intros Hn.
  pose proof (N.div_mod' n 10) as Hdm.
  remember (n / 10)%N as q. remember (n mod 10)%N as r. lia.
Qed.

Lemma digits_recompose (n : N) : (10 * (n / 10) + n mod 10 = n)%N.
Proof. symmetry. apply N.div_mod'. Qed.

Lemma digits_from_value (fuel : nat) (n : N) :
  (n < 2 ^ N.of_nat fuel)%N -> digits_value 0%N (digits_from fuel n "") = n.
Proof.
  revert n. induction fuel as [|fuel IH]; intros n Hn.
  - cbn in *. lia.
  - cbn [digits_from].
    rewrite Nat2N.inj_succ, N.pow_succ_r' in Hn.
    pose proof (mod_ten_small n) as Hm.
    destruct (n / 10 =? 0)%N eqn:E.
    + apply N.eqb_eq in E. cbn [digits_value].
      rewrite digit_char_value by assumption.
      rewrite <- E. apply digits_recompose.
    + rewrite digits_from_acc, digits_value_append. cbn [digits_value].
      rewrite IH by now apply div_ten_halves.
      rewrite digit_char_value by assumption. apply digits_recompose.
Qed.

Lemma size_nat_bound (n : N) : (n < 2 ^ N.of_nat (S (N.size_nat n)))%N.
Proof.
  rewrite Nat2N.inj_succ, N.pow_succ_r'.
  destruct n as [|p]; cbn [N.size_nat].
  - cbn. lia.
  - induction p as [p IH|p IH|]; cbn [Pos.size_nat].
    + rewrite Nat2N.inj_succ, N.pow_succ_r'. lia.
    + rewrite Nat2N.inj_succ, N.pow_succ_r'. lia.
    + cbn. lia.
Qed.

Lemma String_of_value (n : N) : digits_value 0%N (String_of n) = n.
Proof. unfold String_of. apply digits_from_value, size_nat_bound. Qed.

Lemma String_of_all_digits (n : N) : all_digits (String_of n) = true.
Proof. unfold String_of. now apply digits_from_all_digits. Qed.

(** A number below [10^k] prints with at most [k] digits. *)
Lemma digits_from_length (fuel : nat) (n : N) (k : nat) :
  (n < 10 ^ N.of_nat (S k))%N ->
  String.length (digits_from fuel n "") <= S k.
Proof.
  revert n k. induction fuel as [|fuel IH]; intros n k Hn; cbn [digits_from].
  - cbn. lia.
  - destruct (n / 10 =? 0)%N eqn:E; [cbn; lia|].
    apply N.eqb_neq in E.
    rewrite digits_from_acc, length_append. cbn [String.length].
    rewrite Nat2N.inj_succ, N.pow_succ_r' in Hn.
    apply div_ten_tenth in Hn.
    destruct k as [|k].
    + cbn in Hn. remember (n / 10)%N as q. lia.
    + specialize (IH (n / 10)%N k Hn). lia.
Qed.

Lemma String_of_length (n : N) (k : nat) :
  (n < 10 ^ N.of_nat (S k))%N -> String.length (String_of n) <= S k.
Proof. unfold String_of. apply digits_from_length. Qed.

Section PaddedCode.

Variables (c1 c2 c3 c4 : ascii) (width : nat) (m : N).

Lemma padded_code_suffix :
  let code := String c1 (String c2 (String c3 (String c4
                (padStart width "0"%char (String_of m))))) in
  substring 4 (String.length code - 4) code = padStart width "0"%char (String_of m).
Proof.
  cbv zeta. cbn [String.length]. cbn [Nat.sub]. cbn [substring].
  rewrite Nat.sub_0_r. apply substring_all.
Qed.

Lemma padded_code_number :
  code_number (String c1 (String c2 (String c3 (String c4
                 (padStart width "0"%char (String_of m)))))) = m.
Proof.
  unfold code_number. rewrite padded_code_suffix. unfold padStart.
  rewrite digits_value_append, digits_value_zeros. apply String_of_value.
Qed.

Lemma padded_all_digits : all_digits (padStart width "0"%char (String_of m)) = true.
Proof.
  unfold padStart. rewrite all_digits_append, all_digits_zeros, String_of_all_digits.
  reflexivity.
Qed.

Lemma padded_length :
  String.length (String_of m) <= width ->
  String.length (padStart width "0"%char (String_of m)) = width.
Proof.
  intros Hle. unfold padStart. rewrite length_append, length_replicate. lia.
Qed.

End PaddedCode.

Lemma is_digit_range (c : ascii) :
  is_digit c = true -> (48 <= N_of_ascii c <= 57)%N.
Proof.
  unfold is_digit. rewrite andb_true_iff, !N.leb_le. tauto.
Qed.

(** On digit strings of equal length the lexicographic order is the order of
    the numbers they denote. *)
Lemma digits_compare (s1 s2 : string) (a1 a2 : N) :
  String.length s1 = String.length s2 ->
  all_digits s1 = true -> all_digits s2 = true ->
  N.compare (digits_value a1 s1) (digits_value a2 s2) =
  match N.compare a1 a2 with
  | Eq => String.compare s1 s2
  | c => c
  end.
Proof.
  revert s2 a1 a2.
  induction s1 as [|c1 s1 IH]; intros [|c2 s2] a1 a2 Hlen H1 H2;
    try discriminate Hlen.
  - cbn. destruct (N.compare a1 a2); reflexivity.
  - cbn [all_digits] in H1, H2.
    apply andb_true_iff in H1. destruct H1 as [Hc1 H1].
    apply andb_true_iff in H2. destruct H2 as [Hc2 H2].
    apply is_digit_range in Hc1. apply is_digit_range in Hc2.
    cbn [digits_value String.compare].
    rewrite IH by (try assumption; cbn in Hlen; congruence).
    unfold Ascii.compare.
    destruct (N.compare_spec a1 a2),
             (N.compare_spec (10 * a1 + (N_of_ascii c1 - 48)) (10 * a2 + (N_of_ascii c2 - 48))),
             (N.compare_spec (N_of_ascii c1) (N_of_ascii c2));
      try reflexivity; exfalso; lia.
Qed.

Lemma compare_four (c1 c2 c3 c4 : ascii) (x y : string) :
  String.compare (String c1 (String c2 (String c3 (String c4 x))))
                 (String c1 (String c2 (String c3 (String c4 y)))) =
  String.compare x y.
Proof.
  cbn [String.compare]. unfold Ascii.compare. now rewrite !N.compare_refl.
Qed.

Lemma padded_value (width : nat) (m : N) :
  digits_value 0%N (padStart width "0"%char (String_of m)) = m.
Proof.
  unfold padStart. rewrite digits_value_append, digits_value_zeros. apply String_of_value.
Qed.

(** Two numbers that both fit the width give codes in the same order. *)
Lemma padded_code_lt (c1 c2 c3 c4 : ascii) (k : nat) (m1 m2 : N) :
  (m1 < m2)%N -> (m2 < 10 ^ N.of_nat (S k))%N ->
  String.ltb (String c1 (String c2 (String c3 (String c4
                (padStart (S k) "0"%char (String_of m1))))))
             (String c1 (String c2 (String c3 (String c4
                (padStart (S k) "0"%char (String_of m2)))))) = true.
Proof.
  intros Hlt Hfit. unfold String.ltb. rewrite compare_four.
  pose proof (digits_compare (padStart (S k) "0"%char (String_of m1))
                             (padStart (S k) "0"%char (String_of m2)) 0%N 0%N) as Hcmp.
  rewrite !padded_value in Hcmp. cbn [N.compare] in Hcmp.
  rewrite <- Hcmp.
  - apply N.compare_lt_iff in Hlt. now rewrite Hlt.
  - rewrite !padded_length; [reflexivity| |]; apply String_of_length; lia.
  - apply padded_all_digits.
  - apply padded_all_digits.
Qed.

Lemma patientCode_number (count : nat) :
  code_number (patientCode count) = (N.of_nat count + 1)%N.
Proof. unfold patientCode. cbn [append]. apply padded_code_number. Qed.

Lemma billNumberFor_number (count : nat) :
  code_number (billNumberFor count) = (N.of_nat count + 1)%N.
Proof. unfold billNumberFor. cbn [append]. apply padded_code_number. Qed.

Lemma prefix_four (c1 c2 c3 c4 : ascii) (x : string) :
  String.prefix (String c1 (String c2 (String c3 (String c4 ""))))
                (String c1 (String c2 (String c3 (String c4 x)))) = true.
Proof.
  cbn. destruct (ascii_dec c1 c1); [|congruence].
  destruct (ascii_dec c2 c2); [|congruence].
  destruct (ascii_dec c3 c3); [|congruence].
  destruct (ascii_dec c4 c4); [|congruence].
  destruct x; reflexivity.
Qed.

Lemma patientCode_matches (count : nat) :
  (N.of_nat count + 1 <= 99999)%N -> matches_code "PAT-" 5 (patientCode count) = true.
Proof.
  intros Hlt. unfold matches_code.
  replace (String.length "PAT-") with 4 by reflexivity.
  unfold patientCode. cbn [append]. rewrite padded_code_suffix, prefix_four.
  rewrite padded_all_digits, padded_length.
  - reflexivity.
  - apply (String_of_length _ 4). cbn. lia.
Qed.

Lemma billNumberFor_matches (count : nat) :
  (N.of_nat count + 1 <= 999999)%N -> matches_code "INV-" 6 (billNumberFor count) = true.
Proof.
  intros Hlt. unfold matches_code.
  replace (String.length "INV-") with 4 by reflexivity.
  unfold billNumberFor. cbn [append]. rewrite padded_code_suffix, prefix_four.
  rewrite padded_all_digits, padded_length.
  - reflexivity.
  - apply (String_of_length _ 5). cbn. lia.
Qed.

Lemma patientCode_ltb (k1 k2 : nat) :
  k1 < k2 -> (N.of_nat k2 + 1 <= 99999)%N ->
  String.ltb (patientCode k1) (patientCode k2) = true.
Proof.
  intros Hlt Hfit. unfold patientCode. cbn [append].
  apply (padded_code_lt _ _ _ _ 4); [lia|]. cbn. lia.
Qed.

Lemma billNumberFor_ltb (k1 k2 : nat) :
  k1 < k2 -> (N.of_nat k2 + 1 <= 999999)%N ->
  String.ltb (billNumberFor k1) (billNumberFor k2) = true.
Proof.
  intros Hlt Hfit. unfold billNumberFor. cbn [append].
  apply (padded_code_lt _ _ _ _ 5); [lia|]. cbn. lia.
Qed.

Lemma sequential_member {A : Type} (code_of : A -> string) (gen : nat -> string)
      (t : list A) (r : A) :
  map code_of t = map gen (seq 0 (List.length t)) ->
  In r t -> exists k, k < List.length t /\ code_of r = gen k.
Proof.
  intros Hseq Hr.
  assert (In (code_of r) (map gen (seq 0 (List.length t)))) as Hin
    by (rewrite <- Hseq; now apply in_map).
  apply in_map_iff in Hin. destruct Hin as (k & Hk & Hrange).
  apply in_seq in Hrange. exists k. split; [lia|congruence].
Qed.

(** In a table whose codes are those of counts [0 .. n-1], every code
    carries a number between 1 and [n]. *)
Lemma sequential_numbers_below {A : Type} (code_of : A -> string) (gen : nat -> string)
      (t : list A) :
  (forall k, code_number (gen k) = (N.of_nat k + 1)%N) ->
  map code_of t = map gen (seq 0 (List.length t)) ->
  forall r, In r t -> (code_number (code_of r) <= N.of_nat (List.length t))%N.
Proof.
  intros Hgen Hseq r Hr.
  assert (In (code_of r) (map gen (seq 0 (List.length t)))) as Hin
    by (rewrite <- Hseq; now apply in_map).
  apply in_map_iff in Hin. destruct Hin as (k & Hk & Hrange).
  apply in_seq in Hrange. rewrite <- Hk, Hgen. lia.
Qed.

Lemma sequential_fresh {A : Type} (code_of : A -> string) (gen : nat -> string)
      (t : list A) :
  (forall k, code_number (gen k) = (N.of_nat k + 1)%N) ->
  map code_of t = map gen (seq 0 (List.length t)) ->
  has_key code_of (gen (List.length t)) t = false.
Proof.
  intros Hgen Hseq. apply has_key_false. intros r Hr Heq.
  pose proof (sequential_numbers_below code_of gen t Hgen Hseq r Hr) as Hle.
  rewrite Heq, Hgen in Hle. lia.
Qed.

Lemma sequential_extend {A : Type} (code_of : A -> string) (gen : nat -> string)
      (t : list A) (row : A) :
  map code_of t = map gen (seq 0 (List.length t)) ->
  code_of row = gen (List.length t) ->
  map code_of (t ++ [row]) = map gen (seq 0 (List.length (t ++ [row]))).
Proof.
  intros Hseq Hrow.
  rewrite length_app. cbn [List.length]. rewrite seq_app, !map_app. cbn.
  now rewrite Hseq, Hrow.
Qed.

Lemma createPatient_ok (s : Store) (patient : InsertPatient) (uuid : string) (now : timestamp) :
  has_key pat_id uuid (patients s) = false ->
  has_key pat_patientId (patientCode (List.length (patients s))) (patients s) = false ->
  fk_ok user_id (ip_userId patient) (users s) = true ->
  let newPatient :=
    mkPatient uuid (patientCode (List.length (patients s))) (ip_userId patient)
              (ip_firstName patient) (ip_lastName patient) (ip_phone patient)
              (ip_email patient) (Some now) (Some now) in
  createPatient patient uuid now s =
  (with_patients (fun t => t ++ [newPatient]) s, Ok newPatient).
Proof.
  intros Hid Hcode Hfk.
  unfold createPatient. db_run. rewrite Hid, Hcode, Hfk. reflexivity.
Qed.

Lemma createBill_ok (s : Store) (bill : InsertBill) (uuid : string) (now : timestamp) :
  has_key bill_id uuid (bills s) = false ->
  has_key bill_billNumber (billNumberFor (List.length (bills s))) (bills s) = false ->
  has_key pat_id (ib_patientId bill) (patients s) = true ->
  let newBill :=
    mkBill uuid (billNumberFor (List.length (bills s))) (ib_patientId bill)
           (ib_items bill) (ib_subtotal bill)
           (Some (opt_default 0%Z (ib_discount bill)))
           (Some (opt_default 0%Z (ib_tax bill)))
           (ib_total bill)
           (Some (opt_default 0%Z (ib_paidAmount bill)))
           (Some (opt_default "pending" (ib_paymentStatus bill)))
           (ib_paymentMethod bill) (Some now) (Some now) in
  createBill bill uuid now s = (with_bills (fun t => t ++ [newBill]) s, Ok newBill).
Proof.
  intros Hid Hnum Hpat.
  unfold createBill. db_run. rewrite Hid, Hnum, Hpat. reflexivity.
Qed.

(** C8 (amended).  In a store whose patient codes (bill numbers) were all
    generated by sequential creation without deletions:
    - [createPatient] succeeds and gives the new patient the code ["PAT-"]
      followed by [count + 1] in decimal, zero-padded on the left to at least
      5 digits; [createBill] does the same with ["INV-"] and 6 digits;
    - the number in the new code is [count + 1], strictly above the number
      in every code already present, and the store after the creation is
      again sequential, so successive codes are strictly increasing;
    - while [count + 1 <= 99999] the code matches [PAT-\d{5}] and is above
      every code already present in the order of strings as well; the same
      holds for bill numbers and [INV-\d{6}] while [count + 1 <= 999999]. *)
Theorem generated_identifiers (s : Store) :
  (forall patient uuid now,
      sequential_codes s ->
      has_key pat_id uuid (patients s) = false ->
      fk_ok user_id (ip_userId patient) (users s) = true ->
      let count := List.length (patients s) in
      exists s' p,
        createPatient patient uuid now s = (s', Ok p) /\
        In p (patients s') /\
        pat_patientId p = ("PAT-" ++ padStart 5 "0"%char (String_of (N.of_nat count + 1)))%string /\
        code_number (pat_patientId p) = (N.of_nat count + 1)%N /\
        (forall q, In q (patients s) ->
                   (code_number (pat_patientId q) < code_number (pat_patientId p))%N) /\
        ((N.of_nat count + 1 <= 99999)%N ->
         matches_code "PAT-" 5 (pat_patientId p) = true /\
         forall q, In q (patients s) ->
                   String.ltb (pat_patientId q) (pat_patientId p) = true) /\
        List.length (patients s') = count + 1 /\
        sequential_codes s') /\
  (forall bill uuid now,
      sequential_numbers s ->
      has_key bill_id uuid (bills s) = false ->
      has_key pat_id (ib_patientId bill) (patients s) = true ->
      let count := List.length (bills s) in
      exists s' b,
        createBill bill uuid now s = (s', Ok b) /\
        In b (bills s') /\
        bill_billNumber b = ("INV-" ++ padStart 6 "0"%char (String_of (N.of_nat count + 1)))%string /\
        code_number (bill_billNumber b) = (N.of_nat count + 1)%N /\
        (forall q, In q (bills s) ->
                   (code_number (bill_billNumber q) < code_number (bill_billNumber b))%N) /\
        ((N.of_nat count + 1 <= 999999)%N ->
         matches_code "INV-" 6 (bill_billNumber b) = true /\
         forall q, In q (bills s) ->
                   String.ltb (bill_billNumber q) (bill_billNumber b) = true) /\
        List.length (bills s') = count + 1 /\
        sequential_numbers s').
Proof.
  split.
  - intros patient uuid now Hseq Hid Hfk count.
    pose proof (sequential_fresh pat_patientId patientCode (patients s)
                  patientCode_number Hseq) as Hcode.
    eexists. eexists.
    split; [apply (createPatient_ok s patient uuid now Hid Hcode Hfk)|].
    cbn [patients with_patients pat_patientId].
    split; [apply in_or_app; right; left; reflexivity|].
    split; [reflexivity|].
    split; [apply patientCode_number|].
    split.
    { intros q Hq. rewrite patientCode_number.
      pose proof (sequential_numbers_below pat_patientId patientCode (patients s)
                    patientCode_number Hseq q Hq). lia. }
    split.
    { intros Hle. split; [now apply patientCode_matches|].
      intros q Hq.
      destruct (sequential_member pat_patientId patientCode (patients s) q Hseq Hq)
        as (k & Hk & ->).
      now apply patientCode_ltb. }
    split; [rewrite length_app; reflexivity|].
    unfold sequential_codes. cbn [patients with_patients].
    now apply sequential_extend.
  - intros bill uuid now Hseq Hid Hpat count.
    pose proof (sequential_fresh bill_billNumber billNumberFor (bills s)
                  billNumberFor_number Hseq) as Hnum.
    eexists. eexists.
    split; [apply (createBill_ok s bill uuid now Hid Hnum Hpat)|].
    cbn [bills with_bills bill_billNumber].
    split; [apply in_or_app; right; left; reflexivity|].
    split; [reflexivity|].
    split; [apply billNumberFor_number|].
    split.
    { intros q Hq. rewrite billNumberFor_number.
      pose proof (sequential_numbers_below bill_billNumber billNumberFor (bills s)
                    billNumberFor_number Hseq q Hq). lia. }
    split.
    { intros Hle. split; [now apply billNumberFor_matches|].
      intros q Hq.
      destruct (sequential_member bill_billNumber billNumberFor (bills s) q Hseq Hq)
        as (k & Hk & ->).
      now apply billNumberFor_ltb. }
    split; [rewrite length_app; reflexivity|].
    unfold sequential_numbers. cbn [bills with_bills].
    now apply sequential_extend.
Qed.

Lemma generated_identifiers_witness :
  (exists s' p,
      createPatient Sample.new_patient "p1" 1%Z Sample.empty_store = (s', Ok p) /\
      pat_patientId p = "PAT-00001" /\
      matches_code "PAT-" 5 (pat_patientId p) = true) /\
  (exists s' b,
      createBill (bill_request "p1" [Sample.consultation]) "bill2" 4%Z Sample.billing_store
        = (s', Ok b) /\
      bill_billNumber b = "INV-000002" /\
      matches_code "INV-" 6 (bill_billNumber b) = true /\
      (code_number (bill_billNumber Sample.bill1) < code_number (bill_billNumber b))%N).
Proof.
  split.
  - destruct (generated_identifiers Sample.empty_store) as [Hpat _].
    destruct (Hpat Sample.new_patient "p1" 1%Z) as (s' & p & Hrun & _ & Hcode & _ & _ & Hm & _).
    + reflexivity.
    + reflexivity.
    + reflexivity.
    + exists s', p. split; [exact Hrun|]. split; [rewrite Hcode; reflexivity|].
      apply Hm. vm_compute. discriminate.
  - destruct (generated_identifiers Sample.billing_store) as [_ Hbill].
    destruct (Hbill (bill_request "p1" [Sample.consultation]) "bill2" 4%Z)
      as (s' & b & Hrun & _ & Hnum & _ & Hlt & Hm & _).
    + reflexivity.
    + reflexivity.
    + reflexivity.
    + exists s', b. split; [exact Hrun|]. split; [rewrite Hnum; reflexivity|].
      split; [apply Hm; vm_compute; discriminate|].
      apply Hlt. left. reflexivity.
Defined.

Lemma numbered_patients_length (n : nat) (k : N) :
  List.length (Sample.numbered_patients n k) = n.
Proof.
  revert k. induction n as [|n IH]; intros k; cbn; [reflexivity|now rewrite IH].
Qed.

Lemma numbered_patients_codes (n i : nat) :
  map pat_patientId (Sample.numbered_patients n (N.of_nat i + 1)) = map patientCode (seq i n).
Proof.
  revert i. induction n as [|n IH]; intros i; [reflexivity|].
  cbn [Sample.numbered_patients map seq pat_patientId]. f_equal.
  replace (N.of_nat i + 1 + 1)%N with (N.of_nat (S i) + 1)%N by lia.
  apply IH.
Qed.

Lemma numbered_patients_ids (n : nat) (k : N) (r : Patient) :
  In r (Sample.numbered_patients n k) -> exists x, pat_id r = String "p"%char x.
Proof.
  revert k. induction n as [|n IH]; intros k; cbn; [intros []|].
  intros [<-|Hin]; [cbn; eauto|]. now apply (IH (k + 1)%N).
Qed.

Lemma crowded_store_sequential : sequential_codes Sample.crowded_store.
Proof.
  unfold sequential_codes, Sample.crowded_store. cbn [patients].
  rewrite numbered_patients_length.
  apply (numbered_patients_codes (N.to_nat 99999) 0).
Qed.

(** The claim C8 as stated fails: in a store that sequential creation has
    filled with 99999 patients, the next patient gets the code PAT-100000,
    which has six digits, does not match [PAT-\d{5}], and sorts before the
    code PAT-99999 of the patient created last. *)
Lemma createPatient_sixth_digit_counterexample :
  sequential_codes Sample.crowded_store /\
  List.length (patients Sample.crowded_store) = N.to_nat 99999 /\
  exists s' p,
    createPatient Sample.new_patient "new" 5%Z Sample.crowded_store = (s', Ok p) /\
    pat_patientId p = "PAT-100000" /\
    matches_code "PAT-" 5 (pat_patientId p) = false /\
    exists q, In q (patients Sample.crowded_store) /\
              pat_patientId q = "PAT-99999" /\
              String.ltb (pat_patientId q) (pat_patientId p) = false.
Proof.
  split; [apply crowded_store_sequential|].
  assert (List.length (patients Sample.crowded_store) = N.to_nat 99999) as Hlen
    by apply numbered_patients_length.
  split; [exact Hlen|].
  eexists. eexists. split.
  - apply createPatient_ok.
    + apply has_key_false. intros r Hr Heq.
      apply numbered_patients_ids in Hr. destruct Hr as (x & Hx).
      rewrite Hx in Heq. discriminate.
    + apply (sequential_fresh pat_patientId patientCode).
      * apply patientCode_number.
      * apply crowded_store_sequential.
    + reflexivity.
  - cbn [pat_patientId]. rewrite Hlen.
    split; [vm_compute; reflexivity|]. split; [vm_compute; reflexivity|].
    assert (In (patientCode (N.to_nat 99998))
               (map pat_patientId (patients Sample.crowded_store))) as Hin.
    { rewrite crowded_store_sequential, Hlen. apply in_map, in_seq. lia. }
    apply in_map_iff in Hin. destruct Hin as (q & Hq & Hin).
    exists q. split; [exact Hin|]. rewrite Hq.
    split; vm_compute; reflexivity.
Qed.

(** ** Authentication *)

(** C9 (amended).  On a server started with a non-empty
    [REPLIT_DEPLOYMENT_ID], a request without a session user is answered 401
    [{error: "Unauthorized"}] by [isAuthenticated] whatever handler follows
    it, so every protected endpoint answers 401 and leaves the store
    unchanged.  (Without [REPLIT_DEPLOYMENT_ID] the middleware lets every
    request through as user ["demo-user"].) *)
Theorem unauthenticated_is_rejected (c : Context) :
  truthy (REPLIT_DEPLOYMENT_ID c) = true ->
  req_user c = None ->
  (forall (next : string -> Handler) (s : Store),
      isAuthenticated c next s = (s, mkResponse 401 (JError "Unauthorized"))) /\
  (forall (e : Endpoint) (s : Store),
      serve c e s = (s, mkResponse 401 (JError "Unauthorized"))).
Proof.
  intros Hdeployed Hanon.
  assert (forall next s,
             isAuthenticated c next s = (s, mkResponse 401 (JError "Unauthorized"))) as H.
  { intros next s. unfold isAuthenticated. rewrite Hdeployed, Hanon. reflexivity. }
  split; [exact H|]. intros e s. apply H.
Qed.

Lemma unauthenticated_is_rejected_witness :
  serve Sample.anonymous (POST_patients Sample.new_patient) Sample.empty_store =
  (Sample.empty_store, mkResponse 401 (JError "Unauthorized")).
Proof.
  apply (unauthenticated_is_rejected Sample.anonymous); reflexivity.
Defined.

(** The claim C9 as stated fails: when [REPLIT_DEPLOYMENT_ID] is not set, a
    request without a session creates a patient and is answered 201. *)
Lemma demo_mode_counterexample :
  req_user Sample.demo_anonymous = None /\
  exists s' r,
    serve Sample.demo_anonymous (POST_patients Sample.new_patient) Sample.empty_store = (s', r) /\
    res_status r = 201 /\
    res_status r <> 401 /\
    List.length (patients s') = 1 /\
    s' <> Sample.empty_store.
Proof.
  split; [reflexivity|].
  eexists. eexists. split; [vm_compute; reflexivity|].
  split; [reflexivity|]. split; [cbn; discriminate|].
  split; [reflexivity|]. discriminate.
Qed.

(** ** Users *)

Section Find.

Context {A : Type}.
Variable key : A -> string.

Lemma find_update_other (k k' : string) (f : A -> A) (t : list A) :
  (forall r, key (f r) = key r) ->
  k' <> k ->
  find (fun r => key r =? k') (update_where (fun r => key r =? k) f t) =
  find (fun r => key r =? k') t.
Proof.
  intros Hkey Hneq. unfold update_where.
  induction t as [|r t IH]; cbn; [reflexivity|].
  destruct (key r =? k) eqn:E.
  - rewrite Hkey. apply String.eqb_eq in E.
    assert ((key r =? k') = false) as -> by (apply String.eqb_neq; congruence).
    exact IH.
  - destruct (key r =? k'); [reflexivity|exact IH].
Qed.

Lemma find_update_same (k : string) (f : A -> A) (t : list A) :
  (forall r, key (f r) = key r) ->
  find (fun r => key r =? k) (update_where (fun r => key r =? k) f t) =
  option_map f (find (fun r => key r =? k) t).
Proof.
  intros Hkey. apply find_update_where. intros r. now rewrite Hkey.
Qed.

End Find.

Lemma upsertUser_existing (s : Store) (userData : UpsertUser) (uuid : string)
                          (now : timestamp) (id : string) (old : User) :
  uu_id userData = Some id ->
  find (fun u => user_id u =? id) (users s) = Some old ->
  upsertUser userData uuid now s =
  if email_taken id (user_email (upsert_set now userData old)) (users s)
  then (s, Throw (UniqueViolation "users_email_unique"))
  else (with_users (update_where (fun u => user_id u =? id) (upsert_set now userData)) s,
        Ok (upsert_set now userData old)).
Proof.
  intros Hid Hfind. unfold upsertUser. db_run.
  rewrite Hid. cbn [opt_default]. rewrite Hfind.
  cbv beta iota zeta.
  destruct (email_taken id (user_email (upsert_set now userData old)) (users s));
    reflexivity.
Qed.

Lemma role_of_upsert_set (s : Store) (userData : UpsertUser) (now : timestamp)
                         (id id' : string) :
  role_of (with_users (update_where (fun u => user_id u =? id)
                                    (upsert_set now userData)) s) id' =
  role_of s id'.
Proof.
  unfold role_of. cbn [users with_users].
  destruct (String.eqb_spec id' id) as [->|Hneq].
  - rewrite (find_update_same user_id) by reflexivity.
    destruct (find (fun u => user_id u =? id) (users s)); reflexivity.
  - now rewrite (find_update_other user_id) by (reflexivity || assumption).
Qed.

Lemma role_of_updateUserRole (s : Store) (id role : string) (now : timestamp) (old : User) :
  find (fun u => user_id u =? id) (users s) = Some old ->
  updateUserRole id role now s =
    (with_users (update_where (fun u => user_id u =? id) (role_set role now)) s,
     Ok (Some (role_set role now old))) /\
  role_of (fst (updateUserRole id role now s)) id = Some (Some role).
Proof.
  intros Hfind.
  assert (updateUserRole id role now s =
          (with_users (update_where (fun u => user_id u =? id) (role_set role now)) s,
           Ok (Some (role_set role now old)))) as Hrun.
  { unfold updateUserRole. db_run. rewrite hd_returning, Hfind. reflexivity. }
  split; [exact Hrun|].
  rewrite Hrun. unfold role_of. cbn [fst users with_users].
  rewrite (find_update_same user_id) by reflexivity.
  rewrite Hfind. reflexivity.
Qed.

(** C10.  For a user that exists in the store, [upsertUser] (run on each
    login) never changes a role: the role stored for every user id is the
    same before and after, whether the statement succeeds or throws.  When
    the email is free it succeeds, and the row it stores and returns differs
    from the old one only in [email], [firstName], [lastName],
    [profileImageUrl] and [updatedAt]; [id], [role], [phone] and [createdAt]
    are kept.  So a role set by [updateUserRole] is still in place after a
    later login. *)
Theorem upsertUser_keeps_role
  (s : Store) (userData : UpsertUser) (uuid : string) (now : timestamp)
  (id : string) (old : User) :
  uu_id userData = Some id ->
  find (fun u => user_id u =? id) (users s) = Some old ->
  (forall id', role_of (fst (upsertUser userData uuid now s)) id' = role_of s id') /\
  (email_taken id (set_col (uu_email userData) (user_email old)) (users s) = false ->
   exists s' user,
     upsertUser userData uuid now s = (s', Ok user) /\
     find (fun u => user_id u =? id) (users s') = Some user /\
     user_id user = user_id old /\
     user_role user = user_role old /\
     user_phone user = user_phone old /\
     user_createdAt user = user_createdAt old /\
     user_email user = set_col (uu_email userData) (user_email old) /\
     user_firstName user = set_col (uu_firstName userData) (user_firstName old) /\
     user_lastName user = set_col (uu_lastName userData) (user_lastName old) /\
     user_profileImageUrl user =
       set_col (uu_profileImageUrl userData) (user_profileImageUrl old) /\
     user_updatedAt user = Some now) /\
  (forall role now0,
      let s1 := fst (updateUserRole id role now0 s) in
      role_of s1 id = Some (Some role) /\
      role_of (fst (upsertUser userData uuid now s1)) id = Some (Some role)).
Proof.
  intros Hid Hfind.
  assert (forall s0 old0,
             find (fun u => user_id u =? id) (users s0) = Some old0 ->
             forall id', role_of (fst (upsertUser userData uuid now s0)) id' = role_of s0 id')
    as Hkeep.
  { intros s0 old0 Hfind0 id'.
    rewrite (upsertUser_existing s0 userData uuid now id old0 Hid Hfind0).
    destruct (email_taken id (user_email (upsert_set now userData old0)) (users s0));
      cbn [fst]; [reflexivity|apply role_of_upsert_set]. }
  split; [now apply (Hkeep s old)|].
  split.
  - intros Hfree.
    rewrite (upsertUser_existing s userData uuid now id old Hid Hfind).
    cbn [user_email upsert_set]. rewrite Hfree.
    eexists. eexists. split; [reflexivity|].
    split.
    { cbn [users with_users]. rewrite (find_update_same user_id) by reflexivity.
      rewrite Hfind. reflexivity. }
    repeat split; reflexivity.
  - intros role now0 s1.
    destruct (role_of_updateUserRole s id role now0 old Hfind) as [Hrun Hrole].
    split; [exact Hrole|].
    assert (find (fun u => user_id u =? id) (users s1) = Some (role_set role now0 old)) as Hfind1.
    { unfold s1. rewrite Hrun. cbn [fst users with_users].
      rewrite (find_update_same user_id) by reflexivity.
      rewrite Hfind. reflexivity. }
    rewrite (Hkeep s1 _ Hfind1). exact Hrole.
Qed.

Lemma upsertUser_keeps_role_witness :
  role_of (fst (upsertUser Sample.staff_login "fresh" 8%Z Sample.staff_store)) "u1"
    = Some (Some "nurse") /\
  role_of (fst (upsertUser Sample.staff_login "fresh" 8%Z
                  (fst (updateUserRole "u1" "admin" 6%Z Sample.staff_store)))) "u1"
    = Some (Some "admin").
Proof.
  destruct (upsertUser_keeps_role Sample.staff_store Sample.staff_login "fresh" 8%Z
              "u1" Sample.staff eq_refl eq_refl) as (Hkeep & _ & Hsurvive).
  split.
  - rewrite Hkeep. reflexivity.
  - apply (Hsurvive "admin" 6%Z).
Defined.

(** ** Listings filtered by status *)

Lemma insert_desc_perm {A : Type} (lt : A -> A -> bool) (x : A) (l : list A) :
  Permutation (insert_desc lt x l) (x :: l).
Proof.
  induction l as [|y l IH]; cbn; [reflexivity|].
  destruct (lt y x); [reflexivity|].
  rewrite IH. apply perm_swap.
Qed.

Lemma order_by_desc_perm {A : Type} (lt : A -> A -> bool) (l : list A) :
  Permutation (order_by_desc lt l) l.
Proof.
  unfold order_by_desc. induction l as [|x l IH]; cbn; [reflexivity|].
  rewrite insert_desc_perm. now constructor.
Qed.

Lemma in_order_by_desc {A : Type} (lt : A -> A -> bool) (l : list A) (x : A) :
  In x (order_by_desc lt l) <-> In x l.
Proof.
  split; apply Permutation_in; [|symmetry]; apply order_by_desc_perm.
Qed.

(** The rows a listing selects: all of them for a falsy status, those whose
    status column equals it otherwise. *)
Lemma in_selected {A : Type} (col : A -> option string) (lt : A -> A -> bool)
      (status : option string) (t : list A) (x : A) :
  In x (if truthy status
        then order_by_desc lt (filter (fun r => col_eq (col r) (opt_default "" status)) t)
        else order_by_desc lt t) <->
  In x t /\ (truthy status = true -> col x = status).
Proof.
  destruct status as [st|]; cbn [truthy opt_default].
  - destruct (st =? "") eqn:E; cbn [negb].
    + rewrite in_order_by_desc. split; [intros H; split; [exact H|discriminate]|tauto].
    + rewrite in_order_by_desc, filter_In, col_eq_true. split.
      * intros [Hin Hc]. auto.
      * intros [Hin Hc]. auto.
  - rewrite in_order_by_desc. split; [intros H; split; [exact H|discriminate]|tauto].
Qed.

Lemma map_map_id {A B : Type} (f : A -> B) (g : B -> A) (l : list A) :
  (forall a, g (f a) = a) -> map g (map f l) = l.
Proof.
  intros Hid. rewrite map_map. rewrite <- (map_id l) at 2.
  apply map_ext. exact Hid.
Qed.

(** What the four storage listings return, as sets of rows. *)
Lemma listings_select (s : Store) (status : option string) :
  (exists l, getAppointments status s = (s, Ok l) /\
             forall x, In x (map av_row l) <->
                       In x (appointments s) /\ (truthy status = true -> apt_status x = status)) /\
  (exists l, getLabTests status s = (s, Ok l) /\
             forall x, In x (map lv_row l) <->
                       In x (labTests s) /\ (truthy status = true -> lt_status x = status)) /\
  (exists l, getAdmissions status s = (s, Ok l) /\
             forall x, In x (map adv_row l) <->
                       In x (admissions s) /\ (truthy status = true -> adm_status x = status)) /\
  (exists l, getBills status s = (s, Ok l) /\
             forall x, In x (map bv_row l) <->
                       In x (bills s) /\ (truthy status = true -> bill_paymentStatus x = status)).
Proof.
  repeat split.
  - eexists. split; [reflexivity|]. intros x.
    rewrite map_map_id by reflexivity. apply (in_selected apt_status).
  - eexists. split; [reflexivity|]. intros x.
    rewrite map_map_id by reflexivity. apply (in_selected lt_status).
  - eexists. split; [reflexivity|]. intros x.
    rewrite map_map_id by reflexivity. apply (in_selected adm_status).
  - eexists. split; [reflexivity|]. intros x.
    rewrite map_map_id by reflexivity. apply (in_selected bill_paymentStatus).
Qed.

(** The parts of C5 that hold: a concrete status other than ["all"] selects
    exactly the rows with that status on all four routes, a request without
    status returns every row on all four routes, and ["all"] returns every
    row on the appointment and lab-test routes. *)
Lemma status_filter_routes (c : Context) (userId : string) (s : Store) :
  (forall status,
      exists l, handle c userId (GET_appointments status) s =
                  (s, mkResponse 200 (JAppointments l (List.length l))) /\
                forall x, In x (map av_row l) <->
                          In x (appointments s) /\
                          (truthy (unless_all status) = true -> apt_status x = status)) /\
  (forall status,
      exists l, handle c userId (GET_lab_tests status) s = (s, mkResponse 200 (JLabTests l)) /\
                forall x, In x (map lv_row l) <->
                          In x (labTests s) /\
                          (truthy (unless_all status) = true -> lt_status x = status)) /\
  (forall status,
      exists l, handle c userId (GET_admissions status) s = (s, mkResponse 200 (JAdmissions l)) /\
                forall x, In x (map adv_row l) <->
                          In x (admissions s) /\
                          (truthy status = true -> adm_status x = status)) /\
  (forall status,
      exists l, handle c userId (GET_bills status) s = (s, mkResponse 200 (JBills l)) /\
                forall x, In x (map bv_row l) <->
                          In x (bills s) /\
                          (truthy status = true -> bill_paymentStatus x = status)).
Proof.
  assert (forall status, truthy (unless_all status) = true -> unless_all status = status)
    as Hpass.
  { intros [st|]; cbn; [|discriminate]. destruct (st =? "all"); [discriminate|reflexivity]. }
  split; [|split; [|split]]; intros status.
  - destruct (listings_select s (unless_all status)) as ((l & Hrun & Hrows) & _).
    exists l. split; [unfold handle, try_json; now rewrite Hrun|].
    intros x. rewrite Hrows. split; intros [Hin Hst]; split; auto.
    + intros Ht. rewrite (Hst Ht). now apply Hpass.
    + intros Ht. rewrite (Hst Ht). symmetry. now apply Hpass.
  - destruct (listings_select s (unless_all status)) as (_ & (l & Hrun & Hrows) & _).
    exists l. split; [unfold handle, try_json; now rewrite Hrun|].
    intros x. rewrite Hrows. split; intros [Hin Hst]; split; auto.
    + intros Ht. rewrite (Hst Ht). now apply Hpass.
    + intros Ht. rewrite (Hst Ht). symmetry. now apply Hpass.
  - destruct (listings_select s status) as (_ & _ & (l & Hrun & Hrows) & _).
    exists l. split; [unfold handle, try_json; now rewrite Hrun|exact Hrows].
  - destruct (listings_select s status) as (_ & _ & _ & (l & Hrun & Hrows)).
    exists l. split; [unfold handle, try_json; now rewrite Hrun|exact Hrows].
Qed.

(** C5 fails on the code for ["all"] on admissions and bills.  On a store with
    two admissions and one bill, [GET /api/appointments?status=all] and
    [GET /api/lab-tests?status=all] return every row, while
    [GET /api/admissions?status=all] and [GET /api/bills?status=all] return
    no row: these two routes pass ["all"] to the storage layer, which looks
    for rows whose status column is the string ["all"]. *)
Theorem status_all_on_admissions_and_bills :
  (exists l, serve Sample.logged_in (GET_appointments (Some "all")) Sample.clinic_store =
               (Sample.clinic_store, mkResponse 200 (JAppointments l 2)) /\
             map av_row l = [Sample.visit2; Sample.visit1]) /\
  (exists l, serve Sample.logged_in (GET_lab_tests (Some "all")) Sample.clinic_store =
               (Sample.clinic_store, mkResponse 200 (JLabTests l)) /\
             map lv_row l = [Sample.test1]) /\
  admissions Sample.clinic_store = [Sample.stay0; Sample.stay1] /\
  serve Sample.logged_in (GET_admissions (Some "all")) Sample.clinic_store =
    (Sample.clinic_store, mkResponse 200 (JAdmissions [])) /\
  bills Sample.clinic_store = [Sample.bill1] /\
  serve Sample.logged_in (GET_bills (Some "all")) Sample.clinic_store =
    (Sample.clinic_store, mkResponse 200 (JBills [])).
Proof.
  split; [eexists; split; [vm_compute; reflexivity|reflexivity]|].
  split; [eexists; split; [vm_compute; reflexivity|reflexivity]|].
  repeat split.
Qed.

(** ** Further properties of the storage layer *)

Section PrimaryKey.

Context {A : Type}.
Variable key : A -> string.

(** Under a primary key a row splits the table into rows with other keys. *)
Lemma pk_split (t : list A) (r0 : A) :
  NoDup (map key t) -> In r0 t ->
  exists l1 l2, t = l1 ++ r0 :: l2 /\
                (forall r, In r l1 -> key r <> key r0) /\
                (forall r, In r l2 -> key r <> key r0).
Proof.
  intros Hnd Hin. apply in_split in Hin. destruct Hin as (l1 & l2 & ->).
  exists l1, l2. split; [reflexivity|].
  rewrite map_app in Hnd. cbn in Hnd.
  apply NoDup_remove_2 in Hnd.
  split; intros r Hr Heq; apply Hnd; apply in_or_app; [left|right];
    rewrite <- Heq; now apply in_map.
Qed.

Lemma update_where_split (f : A -> A) (l1 l2 : list A) (r0 : A) :
  (forall r, In r l1 -> key r <> key r0) ->
  (forall r, In r l2 -> key r <> key r0) ->
  update_where (fun r => key r =? key r0) f (l1 ++ r0 :: l2) = l1 ++ f r0 :: l2.
Proof.
  intros H1 H2. unfold update_where. rewrite map_app. cbn [map].
  rewrite String.eqb_refl.
  fold (update_where (fun r => key r =? key r0) f l1).
  fold (update_where (fun r => key r =? key r0) f l2).
  rewrite !update_where_none; [reflexivity| |];
    intros r Hr; apply String.eqb_neq; auto.
Qed.

Lemma filter_out_split (l1 l2 : list A) (r0 : A) :
  (forall r, In r l1 -> key r <> key r0) ->
  (forall r, In r l2 -> key r <> key r0) ->
  filter (fun r => negb (key r =? key r0)) (l1 ++ r0 :: l2) = l1 ++ l2.
Proof.
  intros H1 H2. rewrite filter_app. cbn [filter]. rewrite String.eqb_refl. cbn [negb].
  assert (forall l, (forall r, In r l -> key r <> key r0) ->
                    filter (fun r => negb (key r =? key r0)) l = l) as Hkeep.
  { intros l Hl. induction l as [|r l IH]; cbn; [reflexivity|].
    assert ((key r =? key r0) = false) as -> by (apply String.eqb_neq, Hl; now left).
    cbn. f_equal. apply IH. intros r' Hr'. apply Hl. now right. }
  now rewrite !Hkeep.
Qed.

End PrimaryKey.

Lemma has_key_app {A : Type} (key : A -> string) (k : string) (t1 t2 : list A) :
  has_key key k (t1 ++ t2) = has_key key k t1 || has_key key k t2.
Proof. unfold has_key. apply existsb_app. Qed.

Lemma find_admitted_on (s : Store) (b : string) :
  find (fun a => (adm_bedId a =? b) && col_eq (adm_status a) "admitted") (admissions s) =
  find (admitted_on b) (admissions s).
Proof. reflexivity. Qed.

Lemma single_member {A : Type} (l : list A) (x y : A) :
  List.length l <= 1 -> In x l -> In y l -> x = y.
Proof.
  destruct l as [|h [|h' t]]; cbn; intros Hlen Hx Hy.
  - contradiction.
  - destruct Hx as [<-|[]], Hy as [<-|[]]. reflexivity.
  - lia.
Qed.

Lemma one_per_bed_unique (s : Store) (b : string) (a a' : Admission) :
  one_per_bed s ->
  In a (admissions s) -> admitted_on b a = true ->
  In a' (admissions s) -> admitted_on b a' = true ->
  a' = a.
Proof.
  intros Hone Ha Hon Ha' Hon'.
  apply (single_member (filter (admitted_on b) (admissions s))).
  - apply Hone.
  - apply filter_In. auto.
  - apply filter_In. auto.
Qed.

(** X1.  In a store where beds and admissions agree, [getBeds] returns the
    beds of the requested ward (all beds without a ward id) and attaches an
    admission to a bed exactly when the bed is [occupied]; the admission
    attached is the one [admitted] admission that references the bed, joined
    with its patient. *)
Theorem getBeds_attaches_active_admission (s : Store) (wardId : option string) :
  admission_bed_invariant s ->
  exists l,
    getBeds wardId s = (s, Ok l) /\
    (forall bed, In bed (map bdv_row l) <->
                 In bed (beds s) /\ (truthy wardId = true -> Some (bed_wardId bed) = wardId)) /\
    (forall v, In v l ->
       match bdv_admission v with
       | Some (a, p) =>
           bed_status (bdv_row v) = Some "occupied" /\
           In a (admissions s) /\
           adm_bedId a = bed_id (bdv_row v) /\
           adm_status a = Some "admitted" /\
           p = find (fun q => pat_id q =? adm_patientId a) (patients s) /\
           (forall a', In a' (admissions s) -> adm_bedId a' = bed_id (bdv_row v) ->
                       adm_status a' = Some "admitted" -> a' = a)
       | None => bed_status (bdv_row v) <> Some "occupied"
       end).
Proof.
  intros Hinv. eexists. split; [reflexivity|].
  set (by_number := fun a b : Bed => String.ltb (bed_bedNumber a) (bed_bedNumber b)).
  assert (forall bed,
             In bed (if truthy wardId
                     then order_by_asc by_number
                            (filter (fun b => bed_wardId b =? opt_default "" wardId) (beds s))
                     else order_by_asc by_number (beds s)) <->
             In bed (beds s) /\ (truthy wardId = true -> Some (bed_wardId bed) = wardId))
    as Hsel.
  { intros bed. unfold order_by_asc. destruct wardId as [w|]; cbn [truthy opt_default].
    - destruct (w =? "") eqn:E; cbn [negb].
      + rewrite in_order_by_desc. split; [intros H; split; [exact H|discriminate]|tauto].
      + rewrite in_order_by_desc, filter_In, String.eqb_eq. split.
        * intros [Hin Hw]. split; [exact Hin|]. intros _. now rewrite Hw.
        * intros [Hin Hw]. split; [exact Hin|]. specialize (Hw eq_refl). congruence.
    - rewrite in_order_by_desc. split; [intros H; split; [exact H|discriminate]|tauto]. }
  split.
  - intros bed. rewrite map_map_id by reflexivity. apply Hsel.
  - intros v Hv. apply in_map_iff in Hv. destruct Hv as (bed & <- & Hbed).
    apply Hsel in Hbed. destruct Hbed as [Hbed _].
    cbn [bdv_admission bdv_row]. rewrite find_admitted_on.
    destruct (col_eq (bed_status bed) "occupied") eqn:Hocc.
    + apply col_eq_true in Hocc.
      destruct (find (admitted_on (bed_id bed)) (admissions s)) as [a|] eqn:Hfind.
      * apply find_some in Hfind. destruct Hfind as [Ha Hon].
        pose proof Hon as Hon'. apply admitted_on_true in Hon'. destruct Hon' as [Hb Hs].
        repeat split; try assumption.
        intros a' Ha' Hb' Hs'.
        apply (one_per_bed_unique s (bed_id bed)); auto using inv_one.
        apply admitted_on_true. auto.
      * exfalso. apply (inv_sync s Hinv bed Hbed) in Hocc.
        destruct Hocc as (a & Ha & Hb & Hs).
        pose proof (find_none _ _ Hfind a Ha) as Hno.
        assert (admitted_on (bed_id bed) a = true) by (apply admitted_on_true; auto).
        congruence.
    + intros Hs. apply col_eq_true in Hs. congruence.
Qed.

Lemma getBeds_attaches_witness :
  exists l, getBeds None Sample.ward_store = (Sample.ward_store, Ok l) /\
            map bdv_admission l = [None; Some (Sample.stay1, Some Sample.alice)].
Proof.
  destruct (getBeds_attaches_active_admission Sample.ward_store None) as (l & Hrun & _).
  - apply check_invariant_sound. vm_compute. reflexivity.
  - exists l. split; [exact Hrun|].
    vm_compute in Hrun. injection Hrun as <-. reflexivity.
Defined.

Lemma createBed_run (s : Store) (bed : InsertBed) (uuid : string) :
  createBed bed uuid s =
  if has_key bed_id uuid (beds s) then (s, Throw (UniqueViolation "beds_pkey"))
  else if has_key ward_id (nb_wardId bed) (wards s)
       then (with_beds (fun t => t ++ [mkBed uuid (nb_wardId bed) (nb_bedNumber bed)
                                         (Some (opt_default "available" (nb_status bed)))]) s,
             Ok (mkBed uuid (nb_wardId bed) (nb_bedNumber bed)
                       (Some (opt_default "available" (nb_status bed)))))
       else (s, Throw (ForeignKeyViolation "beds_ward_id_wards_id_fk")).
Proof.
  unfold createBed. db_run.
  destruct (has_key bed_id uuid (beds s)); [reflexivity|].
  destruct (has_key ward_id (nb_wardId bed) (wards s)); reflexivity.
Qed.

(** X2.  A bed created in an existing ward, under a fresh id, keeps beds and
    admissions in agreement exactly when its status is not [occupied]; the
    status is [available] when the request has none. *)
Theorem createBed_keeps_invariant (s : Store) (bed : InsertBed) (uuid : string) :
  admission_bed_invariant s ->
  has_key bed_id uuid (beds s) = false ->
  has_key ward_id (nb_wardId bed) (wards s) = true ->
  exists s' b,
    createBed bed uuid s = (s', Ok b) /\
    In b (beds s') /\
    bed_id b = uuid /\
    bed_status b = Some (opt_default "available" (nb_status bed)) /\
    (admission_bed_invariant s' <-> opt_default "available" (nb_status bed) <> "occupied").
Proof.
  intros Hinv Hfresh Hward.
  rewrite createBed_run, Hfresh, Hward.
  eexists. eexists. split; [reflexivity|].
  cbn [beds with_beds bed_id bed_status].
  split; [apply in_or_app; right; left; reflexivity|].
  split; [reflexivity|]. split; [reflexivity|].
  assert (forall a, In a (admissions s) -> adm_bedId a <> uuid) as Hnoref.
  { intros a Ha Heq. pose proof (inv_fk s Hinv a Ha) as Hk.
    rewrite Heq in Hk. congruence. }
  split.
  - intros Hinv' Hocc.
    destruct (inv_sync _ Hinv' (mkBed uuid (nb_wardId bed) (nb_bedNumber bed)
                                      (Some (opt_default "available" (nb_status bed)))))
      as [Hto _].
    { cbn. apply in_or_app. right. left. reflexivity. }
    destruct Hto as (a & Ha & Hb & _); [cbn; now rewrite Hocc|].
    cbn in Ha, Hb. now apply (Hnoref a).
  - intros Hstatus. constructor.
    + intros b Hb. cbn in Hb. apply in_app_or in Hb. destruct Hb as [Hb|[<-|[]]].
      * apply (inv_sync s Hinv b Hb).
      * cbn. split.
        -- intros Heq. injection Heq as Heq. contradiction.
        -- intros (a & Ha & Hba & _). exfalso. now apply (Hnoref a).
    + exact (inv_one s Hinv).
    + exact (inv_pk s Hinv).
    + intros a Ha. cbn [admissions beds with_beds] in *. rewrite has_key_app.
      rewrite (inv_fk s Hinv a Ha). reflexivity.
Qed.

Lemma createBed_keeps_invariant_witness :
  exists s' b,
    createBed Sample2.third_bed "b3" Sample2.full_ward_store = (s', Ok b) /\
    bed_status b = Some "available" /\
    admission_bed_invariant s'.
Proof.
  destruct (createBed_keeps_invariant Sample2.full_ward_store Sample2.third_bed "b3")
    as (s' & b & Hrun & _ & _ & Hstatus & Hinv).
  - apply check_invariant_sound. vm_compute. reflexivity.
  - reflexivity.
  - reflexivity.
  - exists s', b. split; [exact Hrun|]. split; [exact Hstatus|].
    apply Hinv. cbn. discriminate.
Defined.

(** X3.  [createBed] adds a bed to any existing ward without looking at the
    ward's [capacity]: it also succeeds when the ward already holds as many
    beds as its capacity, and the ward then holds more.  For a ward id that
    does not exist it throws and writes nothing. *)
Theorem createBed_ignores_capacity (s : Store) (bed : InsertBed) (uuid : string) :
  (has_key bed_id uuid (beds s) = false ->
   has_key ward_id (nb_wardId bed) (wards s) = true ->
   exists s' b,
     createBed bed uuid s = (s', Ok b) /\
     beds_in_ward (nb_wardId bed) s' = beds_in_ward (nb_wardId bed) s + 1 /\
     forall w, In w (wards s') -> ward_id w = nb_wardId bed ->
               (ward_capacity w <= Z.of_nat (beds_in_ward (nb_wardId bed) s))%Z ->
               (ward_capacity w < Z.of_nat (beds_in_ward (nb_wardId bed) s'))%Z) /\
  (has_key ward_id (nb_wardId bed) (wards s) = false ->
   exists e, createBed bed uuid s = (s, Throw e)).
Proof.
  split.
  - intros Hfresh Hward. rewrite createBed_run, Hfresh, Hward.
    eexists. eexists. split; [reflexivity|].
    assert (beds_in_ward (nb_wardId bed)
              (with_beds (fun t => t ++ [mkBed uuid (nb_wardId bed) (nb_bedNumber bed)
                                           (Some (opt_default "available" (nb_status bed)))]) s)
            = beds_in_ward (nb_wardId bed) s + 1) as Hcount.
    { unfold beds_in_ward. cbn [beds with_beds].
      rewrite filter_app, length_app. cbn [filter bed_wardId].
      rewrite String.eqb_refl. reflexivity. }
    split; [exact Hcount|].
    intros w _ _ Hfull. rewrite Hcount. lia.
  - intros Hward. rewrite createBed_run, Hward.
    destruct (has_key bed_id uuid (beds s)); eauto.
Qed.

Lemma createBed_ignores_capacity_witness :
  ward_capacity Sample2.general_ward = 2%Z /\
  beds_in_ward "w1" Sample2.full_ward_store = 2 /\
  exists s' b,
    createBed Sample2.third_bed "b3" Sample2.full_ward_store = (s', Ok b) /\
    beds_in_ward "w1" s' = 3.
Proof.
  split; [reflexivity|]. split; [reflexivity|].
  destruct (createBed_ignores_capacity Sample2.full_ward_store Sample2.third_bed "b3")
    as [Hok _].
  destruct Hok as (s' & b & Hrun & Hcount & _); [reflexivity|reflexivity|].
  exists s', b. split; [exact Hrun|]. exact Hcount.
Defined.

(** ** Dashboard figures *)

Lemma count_split {A : Type} (q : A -> bool) (l1 l2 : list A) (x : A) :
  List.length (filter q (l1 ++ x :: l2)) =
  List.length (filter q l1) + (if q x then 1 else 0) + List.length (filter q l2).
Proof.
  rewrite filter_app, length_app. cbn [filter].
  destruct (q x); cbn [List.length]; lia.
Qed.


Lemma available_after_status (s : Store) (bed0 : Bed) (status : string) :
  beds_pk s -> In bed0 (beds s) ->
  List.length (filter (fun b => col_eq (bed_status b) "available")
                 (update_where (fun b => bed_id b =? bed_id bed0)
                               (bed_set_status status) (beds s)))
  + (if col_eq (bed_status bed0) "available" then 1 else 0)
  = List.length (filter (fun b => col_eq (bed_status b) "available") (beds s))
    + (if status =? "available" then 1 else 0).
Proof.
  intros Hpk Hin.
  destruct (pk_split bed_id (beds s) bed0 Hpk Hin) as (l1 & l2 & Heq & H1 & H2).
  rewrite Heq, (update_where_split bed_id) by assumption.
  rewrite !count_split. cbn [bed_status bed_set_status col_eq]. lia.
Qed.

(** X4.  The dashboard's count of available beds follows admissions: with
    beds and admissions in agreement and bed ids unique, a successful
    admission into an available bed lowers [availableBeds] by exactly one and
    discharging an admitted patient raises it by exactly one. *)
Theorem availableBeds_follow_admissions (s : Store) (today : Z) :
  admission_bed_invariant s ->
  beds_pk s ->
  (forall admission uuid now,
      has_key adm_id uuid (admissions s) = false ->
      has_key pat_id (ia_patientId admission) (patients s) = true ->
      fk_ok doc_id (ia_doctorId admission) (doctors s) = true ->
      (exists bed, In bed (beds s) /\ bed_id bed = ia_bedId admission /\
                   bed_status bed = Some "available") ->
      exists s' adm d d',
        createAdmission admission uuid now s = (s', Ok adm) /\
        getDashboardStats today s = (s, Ok d) /\
        getDashboardStats today s' = (s', Ok d') /\
        availableBeds d' + 1 = availableBeds d) /\
  (forall a0 now,
      In a0 (admissions s) ->
      adm_status a0 = Some "admitted" ->
      exists s' d d',
        dischargePatient (adm_id a0) now s = (s', Ok (Some (discharge_set now a0))) /\
        getDashboardStats today s = (s, Ok d) /\
        getDashboardStats today s' = (s', Ok d') /\
        availableBeds d' = availableBeds d + 1).
Proof.
  intros Hinv Hpk. split.
  - intros admission uuid now Hfresh Hpat Hdoc (bed & Hin & Hid & Hav).
    assert (has_key bed_id (ia_bedId admission) (beds s) = true) as Hkey
      by (apply has_key_true; eauto).
    do 4 eexists. split; [now apply createAdmission_ok|].
    split; [reflexivity|]. split; [reflexivity|].
    cbn [availableBeds]. unfold count_rows, admitted_store. cbn [beds with_beds with_admissions].
    pose proof (available_after_status s bed "occupied" Hpk Hin) as Hcount.
    rewrite Hid, Hav in Hcount. cbn in Hcount. lia.
  - intros a0 now Hin0 Hadm.
    pose proof (inv_fk s Hinv a0 Hin0) as Hk.
    apply has_key_true in Hk. destruct Hk as (bed & Hin & Hid).
    assert (bed_status bed = Some "occupied") as Hocc.
    { apply (inv_sync s Hinv bed Hin). exists a0. auto. }
    do 3 eexists. split; [now apply dischargePatient_found|].
    split; [reflexivity|]. split; [reflexivity|].
    cbn [availableBeds]. unfold count_rows, discharged_store.
    cbn [beds with_beds with_admissions].
    pose proof (available_after_status s bed "available" Hpk Hin) as Hcount.
    rewrite Hid, Hocc in Hcount. cbn in Hcount. lia.
Qed.

Lemma availableBeds_follow_admissions_witness :
  exists s' d d',
    dischargePatient "a1" 9%Z Sample.ward_store = (s', Ok (Some (discharge_set 9%Z Sample.stay1))) /\
    getDashboardStats 0%Z Sample.ward_store = (Sample.ward_store, Ok d) /\
    getDashboardStats 0%Z s' = (s', Ok d') /\
    availableBeds d = 1 /\ availableBeds d' = 2.
Proof.
  destruct (availableBeds_follow_admissions Sample.ward_store 0%Z) as [_ Hdis].
  - apply check_invariant_sound. vm_compute. reflexivity.
  - unfold beds_pk. apply distinct_NoDup. reflexivity.
  - destruct (Hdis Sample.stay1 9%Z) as (s' & d & d' & Hrun & Hd & Hd' & Hcount).
    + left. reflexivity.
    + reflexivity.
    + exists s', d, d'. split; [exact Hrun|]. split; [exact Hd|]. split; [exact Hd'|].
      assert (availableBeds d = 1) as H1.
      { vm_compute in Hd. injection Hd as <-. reflexivity. }
      split; [exact H1|]. rewrite Hcount, H1. reflexivity.
Defined.



(** ** Deleting patients *)

Lemma deletePatient_run (s : Store) (id : string) :
  deletePatient id s =
  if patient_referenced id s
  then (s, Throw (ForeignKeyViolation "patient_id_patients_id_fk"))
  else (with_patients (filter (fun p => negb (pat_id p =? id))) s, Ok tt).
Proof.
  unfold deletePatient. db_run. destruct (patient_referenced id s); reflexivity.
Qed.

(** X6.  [deletePatient] never removes a patient that an appointment, lab
    test, admission or bill refers to: for such a patient it throws, writes
    nothing, and the route answers 500.  Otherwise it removes the rows with
    that id and no other row, and the route answers 204, also when there was
    no such patient. *)
Theorem deletePatient_outcomes (s : Store) (id : string) (c : Context) (userId : string) :
  (patient_referenced id s = true ->
   handle c userId (DELETE_patients_id id) s =
     (s, mkResponse 500 (JError "Failed to delete patient"))) /\
  (patient_referenced id s = false ->
   exists s',
     handle c userId (DELETE_patients_id id) s = (s', mkResponse 204 JNothing) /\
     (forall p, In p (patients s') <-> In p (patients s) /\ pat_id p <> id) /\
     (has_key pat_id id (patients s) = false -> s' = s)) /\
  (forall k, patient_referenced k s = true ->
             has_key pat_id k (patients s) = true ->
             has_key pat_id k (patients (fst (deletePatient id s))) = true).
Proof.
  split; [|split].
  - intros Href. unfold handle, try_json. now rewrite deletePatient_run, Href.
  - intros Href. eexists. split.
    { unfold handle, try_json. rewrite deletePatient_run, Href. reflexivity. }
    split.
    + intros p. cbn [patients with_patients]. rewrite filter_In, negb_true_iff.
      now rewrite String.eqb_neq.
    + intros Hno. unfold with_patients.
      assert (filter (fun p => negb (pat_id p =? id)) (patients s) = patients s) as ->.
      { rewrite has_key_false in Hno.
        induction (patients s) as [|p l IH]; cbn; [reflexivity|].
        assert ((pat_id p =? id) = false) as ->
          by (apply String.eqb_neq, Hno; now left).
        cbn. f_equal. apply IH. intros r Hr. apply Hno. now right. }
      destruct s; reflexivity.
  - intros k Href Hhas. rewrite deletePatient_run.
    destruct (patient_referenced id s) eqn:Hid; cbn [fst]; [exact Hhas|].
    apply has_key_true in Hhas. destruct Hhas as (p & Hp & Hk).
    apply has_key_true. exists p. split; [|exact Hk].
    cbn [patients with_patients]. apply filter_In. split; [exact Hp|].
    apply negb_true_iff, String.eqb_neq. intros Heq. congruence.
Qed.

Lemma deletePatient_outcomes_witness :
  handle Sample.logged_in "u1" (DELETE_patients_id "p1") Sample.ward_store =
  (Sample.ward_store, mkResponse 500 (JError "Failed to delete patient")).
Proof.
  apply (deletePatient_outcomes Sample.ward_store "p1" Sample.logged_in "u1").
  reflexivity.
Defined.

Lemma sequential_last {A : Type} (code_of : A -> string) (gen : nat -> string)
      (l : list A) (z : A) :
  map code_of (l ++ [z]) = map gen (seq 0 (List.length (l ++ [z]))) ->
  code_of z = gen (List.length l) /\
  map code_of l = map gen (seq 0 (List.length l)).
Proof.
  rewrite length_app. cbn [List.length]. rewrite seq_app, !map_app. cbn [map seq Nat.add].
  intros Heq. apply app_inj_tail in Heq. destruct Heq as [Hl Hz]. auto.
Qed.




(** X8.  Deleting the most recently created patient frees its code: in a
    store filled by sequential creation, after that deletion the next
    [createPatient] succeeds and gives the new patient the code the deleted
    one had. *)
Theorem createPatient_reuses_code_after_delete
  (s : Store) (l : list Patient) (last : Patient)
  (patient : InsertPatient) (uuid : string) (now : timestamp) :
  sequential_codes s ->
  patients_pk s ->
  patients s = l ++ [last] ->
  patient_referenced (pat_id last) s = false ->
  uuid <> pat_id last ->
  has_key pat_id uuid (patients s) = false ->
  fk_ok user_id (ip_userId patient) (users s) = true ->
  exists s1 s2 p,
    deletePatient (pat_id last) s = (s1, Ok tt) /\
    patients s1 = l /\
    createPatient patient uuid now s1 = (s2, Ok p) /\
    pat_patientId p = pat_patientId last /\
    pat_id p <> pat_id last.
Proof.
  intros Hseq Hpk Hsplit Href Hneq Hfresh Hfk.
  rewrite deletePatient_run, Href.
  assert (patients (with_patients (filter (fun p => negb (pat_id p =? pat_id last))) s) = l)
    as Hrest.
  { cbn [patients with_patients]. rewrite Hsplit.
    unfold patients_pk in Hpk. rewrite Hsplit in Hpk.
    rewrite map_app in Hpk. cbn [map] in Hpk.
    pose proof (NoDup_remove_2 _ _ _ Hpk) as Hnotin.
    rewrite (filter_out_split pat_id l [] last).
    - apply app_nil_r.
    - intros r Hr Heq. apply Hnotin. apply in_or_app. left. rewrite <- Heq. now apply in_map.
    - intros r []. }
  unfold sequential_codes in Hseq. rewrite Hsplit in Hseq.
  apply sequential_last in Hseq. destruct Hseq as [Hlast Hprefix].
  do 3 eexists. split; [reflexivity|]. split; [exact Hrest|].
  split.
  - apply createPatient_ok.
    + rewrite Hrest. apply has_key_false. intros r Hr.
      rewrite has_key_false in Hfresh. apply Hfresh. rewrite Hsplit.
      apply in_or_app. now left.
    + rewrite Hrest. now apply (sequential_fresh pat_patientId patientCode l patientCode_number).
    + exact Hfk.
  - cbn [pat_patientId pat_id]. rewrite Hrest. split; [now rewrite Hlast|exact Hneq].
Qed.

Lemma createPatient_reuses_code_witness :
  exists s1 s2 p,
    deletePatient "p3" Sample2.three_patients = (s1, Ok tt) /\
    createPatient Sample.new_patient "p9" 5%Z s1 = (s2, Ok p) /\
    pat_patientId p = "PAT-00003".
Proof.
  destruct (createPatient_reuses_code_after_delete Sample2.three_patients
              [Sample.alice; Sample2.bob] Sample2.carol Sample.new_patient "p9" 5%Z)
    as (s1 & s2 & p & Hdel & _ & Hnew & Hcode & _).
  - reflexivity.
  - unfold patients_pk. apply distinct_NoDup. reflexivity.
  - reflexivity.
  - reflexivity.
  - discriminate.
  - reflexivity.
  - reflexivity.
  - exists s1, s2, p. split; [exact Hdel|]. split; [exact Hnew|]. exact Hcode.
Defined.

(** ** Users and sessions *)

Lemma updateUserRole_run (s : Store) (id role : string) (now : timestamp) :
  updateUserRole id role now s =
  (with_users (update_where (fun u => user_id u =? id) (role_set role now)) s,
   Ok (option_map (role_set role now) (find (fun u => user_id u =? id) (users s)))).
Proof.
  unfold updateUserRole. db_run. now rewrite hd_returning.
Qed.

Lemma with_users_same (s : Store) (f : list User -> list User) :
  f (users s) = users s -> with_users f s = s.
Proof. unfold with_users. intros ->. destruct s; reflexivity. Qed.

(** X9.  [updateUserRole] stores whatever role string it is given (it is not
    compared with [USER_ROLES]): the user found under the id gets that role
    and a new [updatedAt], keeps every other column, and no other user
    changes.  For an id that is not in the store it returns nothing, writes
    nothing, and [PATCH /api/users/:id/role] still answers 200. *)
Theorem updateUserRole_outcomes (s : Store) (id role : string) (now : timestamp) :
  (forall old, find (fun u => user_id u =? id) (users s) = Some old ->
     exists s' user,
       updateUserRole id role now s = (s', Ok (Some user)) /\
       find (fun u => user_id u =? id) (users s') = Some user /\
       user_role user = Some role /\
       user_updatedAt user = Some now /\
       user_id user = user_id old /\
       user_email user = user_email old /\
       user_firstName user = user_firstName old /\
       user_lastName user = user_lastName old /\
       user_profileImageUrl user = user_profileImageUrl old /\
       user_phone user = user_phone old /\
       user_createdAt user = user_createdAt old /\
       forall id', id' <> id ->
                   find (fun u => user_id u =? id') (users s') =
                   find (fun u => user_id u =? id') (users s)) /\
  (has_key user_id id (users s) = false ->
     updateUserRole id role now s = (s, Ok None) /\
     forall c userId,
       handle c userId (PATCH_users_role id role) s = (s, mkResponse 200 (JUser None))).
Proof.
  split.
  - intros old Hfind. rewrite updateUserRole_run, Hfind.
    eexists. eexists. split; [reflexivity|].
    cbn [users with_users]. split.
    { rewrite (find_update_same user_id) by reflexivity. now rewrite Hfind. }
    repeat split.
    intros id' Hneq. now apply (find_update_other user_id).
  - intros Hno.
    assert (forall now', updateUserRole id role now' s = (s, Ok None)) as Hrun.
    { intros now'. rewrite updateUserRole_run.
      rewrite (proj2 (find_key_none user_id id (users s)) Hno).
      rewrite with_users_same; [reflexivity|].
      apply update_where_none. intros r Hr. apply String.eqb_neq.
      rewrite has_key_false in Hno. now apply Hno. }
    split; [apply Hrun|].
    intros c userId. unfold handle, try_json. now rewrite Hrun.
Qed.

Lemma updateUserRole_outcomes_witness :
  exists s' user,
    updateUserRole "u1" "superuser" 6%Z Sample.staff_store = (s', Ok (Some user)) /\
    user_role user = Some "superuser".
Proof.
  destruct (updateUserRole_outcomes Sample.staff_store "u1" "superuser" 6%Z) as [Hfound _].
  destruct (Hfound Sample.staff eq_refl) as (s' & user & Hrun & _ & Hrole & _).
  exists s', user. split; [exact Hrun|exact Hrole].
Defined.

Lemma find_by_key_pk {A : Type} (key : A -> string) (t : list A) (r : A) :
  NoDup (map key t) -> In r t -> find (fun x => key x =? key r) t = Some r.
Proof.
  intros Hnd Hin.
  destruct (find (fun x => key x =? key r) t) as [r'|] eqn:Hfind.
  - apply find_some in Hfind. destruct Hfind as [Hin' Heq].
    apply String.eqb_eq in Heq. f_equal. now apply (pk_same_row key t).
  - pose proof (find_none _ _ Hfind r Hin) as Hno. cbn in Hno.
    rewrite String.eqb_refl in Hno. discriminate.
Qed.

(** X10.  A session holds only the user id and the user row is read again on
    every request: for a stored user, [deserializeUser (serializeUser u)]
    gives back [u], and after [updateUserRole] it gives the row with the new
    role, so a role change reaches users who are already logged in. *)
Theorem session_round_trip (s : Store) (u : User) :
  users_pk s ->
  In u (users s) ->
  deserializeUser (serializeUser u) s = (s, Ok (Some u)) /\
  forall role now dep uuid now',
    let s' := fst (updateUserRole (user_id u) role now s) in
    deserializeUser (serializeUser u) s' = (s', Ok (Some (role_set role now u))) /\
    req_user (session_context dep (serializeUser u) uuid now' s') =
      Some (role_set role now u) /\
    user_role (role_set role now u) = Some role.
Proof.
  intros Hpk Hin.
  assert (find (fun x => user_id x =? user_id u) (users s) = Some u) as Hfind
    by now apply find_by_key_pk.
  split.
  - unfold deserializeUser, serializeUser, getUser, gets. now rewrite Hfind.
  - intros role now dep uuid now' s'.
    assert (deserializeUser (serializeUser u) s' = (s', Ok (Some (role_set role now u))))
      as Hrun.
    { unfold deserializeUser, serializeUser, getUser, gets, s'.
      rewrite updateUserRole_run. cbn [fst users with_users].
      rewrite (find_update_same user_id) by reflexivity. now rewrite Hfind. }
    split; [exact Hrun|]. split; [|reflexivity].
    unfold session_context. now rewrite Hrun.
Qed.

Lemma session_round_trip_witness :
  deserializeUser (serializeUser Sample.staff) Sample.staff_store =
  (Sample.staff_store, Ok (Some Sample.staff)).
Proof.
  destruct (session_round_trip Sample.staff_store Sample.staff) as [Hback _].
  - unfold users_pk. apply distinct_NoDup. reflexivity.
  - left. reflexivity.
  - exact Hback.
Defined.

Lemma find_app_none {A : Type} (p : A -> bool) (t : list A) (x : A) :
  find p t = None -> find p (t ++ [x]) = if p x then Some x else None.
Proof.
  induction t as [|r t IH]; cbn; [reflexivity|].
  destruct (p r); [discriminate|exact IH].
Qed.

Lemma find_app_other {A : Type} (p : A -> bool) (t : list A) (x : A) :
  p x = false -> find p (t ++ [x]) = find p t.
Proof.
  intros Hx. induction t as [|r t IH]; cbn; [now rewrite Hx|].
  destruct (p r); [reflexivity|exact IH].
Qed.

(** X11.  First login of an identity that is not yet in [users]: when its
    email is not held by another user, [upsertUser] adds the user with role
    [patient] (unless a role is given), both timestamps set to now, and the
    user can then be found by id and by email while the users already
    present are left as they were; when the email is held by another user,
    [upsertUser] throws a unique violation and writes nothing. *)
Theorem upsertUser_first_login
  (s : Store) (userData : UpsertUser) (uuid : string) (now : timestamp) :
  let id := opt_default uuid (uu_id userData) in
  has_key user_id id (users s) = false ->
  (email_taken id (uu_email userData) (users s) = false ->
   exists s' user,
     upsertUser userData uuid now s = (s', Ok user) /\
     users s' = users s ++ [user] /\
     user_id user = id /\
     user_role user = Some (opt_default "patient" (uu_role userData)) /\
     user_email user = uu_email userData /\
     user_createdAt user = Some now /\
     user_updatedAt user = Some now /\
     getUser id s' = (s', Ok (Some user)) /\
     (forall e, uu_email userData = Some e ->
                getUserByEmail e s' = (s', Ok (Some user)))) /\
  (email_taken id (uu_email userData) (users s) = true ->
   upsertUser userData uuid now s = (s, Throw (UniqueViolation "users_email_unique"))).
Proof.
  intros id Hnew.
  assert (find (fun u => user_id u =? id) (users s) = None) as Hfind
    by now apply find_key_none.
  split.
  - intros Hfree. unfold upsertUser. db_run. fold id. rewrite Hfind.
    cbn [user_email upsert_row]. rewrite Hfree.
    eexists. eexists. split; [reflexivity|].
    cbn [users with_users user_id user_role user_email user_createdAt user_updatedAt
         upsert_row].
    repeat split.
    + unfold getUser, gets. cbn [users with_users].
      rewrite find_app_none by assumption. cbn [user_id upsert_row].
      now rewrite String.eqb_refl.
    + intros e He. unfold getUserByEmail, gets. cbn [users with_users].
      rewrite find_app_none.
      * cbn [user_email upsert_row col_eq]. rewrite He. cbn [col_eq].
        now rewrite String.eqb_refl.
      * rewrite He in Hfree. cbn [email_taken] in Hfree.
        destruct (find (fun u => col_eq (user_email u) e) (users s)) as [u|] eqn:E;
          [|reflexivity].
        apply find_some in E. destruct E as [Hu He'].
        assert (existsb (fun u => negb (user_id u =? id) && col_eq (user_email u) e)
                        (users s) = true) as Hex.
        { apply existsb_exists. exists u. split; [exact Hu|].
          rewrite He', andb_true_r. apply negb_true_iff, String.eqb_neq.
          rewrite has_key_false in Hnew. now apply Hnew. }
        congruence.
  - intros Htaken. unfold upsertUser. db_run. fold id. rewrite Hfind.
    cbn [user_email upsert_row]. now rewrite Htaken.
Qed.

Lemma upsertUser_first_login_witness :
  upsertUser (mkUpsertUser (Some "u2") (Some "nurse@example.org") (Some "Ned") None None
                           None None)
             "fresh" 8%Z Sample.staff_store =
  (Sample.staff_store, Throw (UniqueViolation "users_email_unique")).
Proof.
  apply (upsertUser_first_login Sample.staff_store
           (mkUpsertUser (Some "u2") (Some "nurse@example.org") (Some "Ned") None None
                         None None) "fresh" 8%Z); reflexivity.
Defined.

(** ** Payments in sequence and the billing page *)









(** ** Searching patients *)

Lemma like_percent (p s : string) :
  like (String "%" p) s =
  like p s || match s with
              | EmptyString => false
              | String _ s' => like (String "%" p) s'
              end.
Proof. destruct s; reflexivity. Qed.

Lemma like_percent_iff (p s : string) :
  like (String "%" p) s = true <->
  exists pre post, s = (pre ++ post)%string /\ like p post = true.
Proof.
  induction s as [|x s IH].
  - rewrite like_percent, orb_false_r. split.
    + intros H. exists "", "". split; [reflexivity|exact H].
    + intros (pre & post & Heq & H).
      destruct pre; [cbn in Heq; now subst post|discriminate].
  - rewrite like_percent, orb_true_iff, IH. split.
    + intros [H|(pre & post & -> & H)].
      * exists "", (String x s). split; [reflexivity|exact H].
      * exists (String x pre), post. split; [reflexivity|exact H].
    + intros (pre & post & Heq & H). destruct pre as [|y pre].
      * left. cbn in Heq. now subst post.
      * right. cbn in Heq. injection Heq as -> ->. exists pre, post. auto.
Qed.

Lemma like_plain_char (c : ascii) (p s : string) :
  plain_char c = true ->
  like (String c p) s =
  match s with
  | EmptyString => false
  | String x s' => Ascii.eqb c x && like p s'
  end.
Proof.
  unfold plain_char. rewrite !andb_true_iff, !negb_true_iff.
  intros [[H1 H2] H3]. cbn [like]. rewrite H1, H2, H3. reflexivity.
Qed.

Lemma like_plain_prefix (lit p s : string) :
  plain lit = true ->
  (like (lit ++ p) s = true <-> exists rest, s = (lit ++ rest)%string /\ like p rest = true).
Proof.
  revert s. induction lit as [|c lit IH]; intros s Hplain.
  - cbn [append]. split; [intros H; exists s; auto|intros (rest & -> & H); exact H].
  - cbn [plain] in Hplain. apply andb_true_iff in Hplain. destruct Hplain as [Hc Hlit].
    cbn [append]. rewrite like_plain_char by assumption.
    destruct s as [|x s].
    + split; [discriminate|intros (rest & Heq & _); discriminate].
    + rewrite andb_true_iff, Ascii.eqb_eq, (IH s Hlit). split.
      * intros [-> (rest & -> & H)]. exists rest. auto.
      * intros (rest & Heq & H). injection Heq as -> ->. split; [reflexivity|eauto].
Qed.

Lemma like_only_percent (s : string) : like "%" s = true.
Proof.
  apply like_percent_iff. exists s, "". split; [|reflexivity].
  induction s as [|x s IH]; cbn; [reflexivity|now rewrite <- IH].
Qed.

(** With a pattern [%lit%] free of special characters, [LIKE] is the
    substring test. *)
Lemma like_substring (lit s : string) :
  plain lit = true ->
  (like (search_pattern lit) s = true <->
   exists pre post, s = (pre ++ lit ++ post)%string).
Proof.
  intros Hplain. unfold search_pattern. cbn [append].
  rewrite like_percent_iff. split.
  - intros (pre & rest & -> & H).
    apply (like_plain_prefix lit "%" rest Hplain) in H.
    destruct H as (post & -> & _). eauto.
  - intros (pre & post & ->). exists pre, (lit ++ post)%string. split; [reflexivity|].
    apply (like_plain_prefix lit "%" _ Hplain). exists post.
    split; [reflexivity|apply like_only_percent].
Qed.

Lemma lower_string_append (a b : string) :
  lower_string (a ++ b) = (lower_string a ++ lower_string b)%string.
Proof. induction a as [|x a IH]; cbn; [reflexivity|now rewrite IH]. Qed.

Lemma lower_string_split (t a b : string) :
  lower_string t = (a ++ b)%string ->
  exists ta tb, t = (ta ++ tb)%string /\ lower_string ta = a /\ lower_string tb = b.
Proof.
  revert t. induction a as [|x a IH]; intros t Heq.
  - exists "", t. auto.
  - destruct t as [|y t]; [discriminate|]. cbn in Heq. injection Heq as Hx Heq.
    destruct (IH t Heq) as (ta & tb & -> & Ha & Hb).
    exists (String y ta), tb. cbn. rewrite Hx, Ha. auto.
Qed.

Lemma lower_plain_char (c : ascii) : plain_char c = true -> plain_char (lower c) = true.
Proof.
  destruct c as [[] [] [] [] [] [] [] []]; intros H; try reflexivity; discriminate H.
Qed.

Lemma lower_plain (s : string) : plain s = true -> plain (lower_string s) = true.
Proof.
  induction s as [|c s IH]; cbn; [reflexivity|].
  rewrite !andb_true_iff. intros [Hc Hs]. split; [now apply lower_plain_char|auto].
Qed.

Lemma lower_search_pattern (q : string) :
  lower_string (search_pattern q) = search_pattern (lower_string q).
Proof.
  unfold search_pattern. cbn [append lower_string].
  rewrite lower_string_append. reflexivity.
Qed.

Lemma ilike_contains (column q : string) :
  plain q = true ->
  (ilike column (search_pattern q) = true <-> contains_ci q column).
Proof.
  intros Hplain. unfold ilike, contains_ci.
  rewrite lower_search_pattern, (like_substring _ _ (lower_plain q Hplain)). split.
  - intros (pre & post & Heq).
    apply lower_string_split in Heq. destruct Heq as (tpre & trest & -> & _ & Hrest).
    apply lower_string_split in Hrest. destruct Hrest as (m & tpost & -> & Hm & _).
    exists tpre, m, tpost. auto.
  - intros (pre & m & post & -> & Hm).
    exists (lower_string pre), (lower_string post).
    now rewrite !lower_string_append, Hm.
Qed.

(** The patterns that [getPatients] builds never end in a lone backslash. *)
Lemma search_pattern_well_formed (q : string) :
  dangling_escape (lower_string (search_pattern q)) = false.
Proof.
  rewrite lower_search_pattern. unfold search_pattern. cbn [append].
  cbn [dangling_escape]. change (Ascii.eqb "%" "\") with false. cbv iota.
  generalize (lower_string q). intros s.
  assert (dangling_escape (s ++ "%") = false /\
          forall c, dangling_escape (String c s ++ "%") = false) as [H _]; [|exact H].
  induction s as [|x s [IH1 IH2]].
  - split; [reflexivity|]. intros c. cbn.
    destruct (Ascii.eqb c "\"); reflexivity.
  - split; [apply IH2|]. intros c.
    change (String c (String x s) ++ "%")%string with (String c (String x (s ++ "%"))).
    cbn [dangling_escape]. destruct (Ascii.eqb c "\"); [exact IH1|].
    apply (IH2 x).
Qed.

(** X15.  [getPatients(search)]: without a search string, or with the empty
    one, it lists every patient.  With a search string free of the [LIKE]
    characters [%], [_] and backslash it lists exactly the patients whose
    first name, last name, patient code or phone contains the string, case
    being ignored. *)
Theorem getPatients_search_substring (s : Store) :
  (forall search, truthy search = false ->
                  getPatients_search search s = getPatients s) /\
  (forall q, q <> "" -> plain q = true ->
     exists l,
       getPatients_search (Some q) s = (s, Ok l) /\
       forall p, In p l <->
                 In p (patients s) /\
                 (contains_ci q (pat_firstName p) \/ contains_ci q (pat_lastName p) \/
                  contains_ci q (pat_patientId p) \/ contains_ci q (pat_phone p))).
Proof.
  split.
  - intros search Hfalsy. unfold getPatients_search, getPatients, gets.
    now rewrite Hfalsy.
  - intros q Hne Hplain. eexists. split.
    { unfold getPatients_search, gets. cbn [truthy opt_default].
      assert ((q =? "") = false) as -> by now apply String.eqb_neq.
      cbn [negb]. reflexivity. }
    intros p. rewrite in_order_by_desc, filter_In. unfold patient_matches.
    rewrite !orb_true_iff, !(ilike_contains _ q Hplain). tauto.
Qed.

Lemma getPatients_search_witness :
  exists l,
    getPatients_search (Some "jan") Sample2.two_patients = (Sample2.two_patients, Ok l) /\
    l = [Sample2.jane] /\
    (In Sample2.jane l <->
     In Sample2.jane (patients Sample2.two_patients) /\
     (contains_ci "jan" "Jane" \/ contains_ci "jan" "Doe" \/
      contains_ci "jan" "PAT-00002" \/ contains_ci "jan" "555-0105")).
Proof.
  destruct (getPatients_search_substring Sample2.two_patients) as [_ Hsearch].
  destruct (Hsearch "jan") as (l & Hrun & Hiff).
  - discriminate.
  - reflexivity.
  - exists l. split; [exact Hrun|].
    split; [vm_compute in Hrun; now injection Hrun as <-|].
    apply (Hiff Sample2.jane).
Defined.

Lemma like_all_percent (p s : string) :
  only_percent p = true -> p <> "" -> like p s = true.
Proof.
  induction p as [|c p IH]; intros Hall Hne; [now elim Hne|].
  cbn [only_percent] in Hall. apply andb_true_iff in Hall. destruct Hall as [Hc Hp].
  apply Ascii.eqb_eq in Hc. subst c.
  destruct p as [|c p'].
  - apply like_only_percent.
  - apply like_percent_iff. exists "", s. split; [reflexivity|].
    apply IH; [exact Hp|discriminate].
Qed.

Lemma only_percent_pattern (q : string) :
  only_percent q = true -> only_percent (lower_string (search_pattern q)) = true.
Proof.
  intros H. rewrite lower_search_pattern. unfold search_pattern. cbn [append only_percent].
  change (Ascii.eqb "%" "%") with true. cbn [andb].
  induction q as [|c q IH]; [reflexivity|].
  cbn [only_percent] in H. apply andb_true_iff in H. destruct H as [Hc Hq].
  apply Ascii.eqb_eq in Hc. subst c. cbn. now apply IH.
Qed.

(** X16.  The search string is put into the [LIKE] pattern as it is, so its
    special characters act as wildcards: a search made only of [%] lists
    every patient, and a search [_] lists every patient that has a non-empty
    first name. *)
Theorem getPatients_search_wildcards (s : Store) :
  (forall q, q <> "" -> only_percent q = true ->
     exists l, getPatients_search (Some q) s = (s, Ok l) /\
               forall p, In p l <-> In p (patients s)) /\
  (exists l, getPatients_search (Some "_") s = (s, Ok l) /\
             forall p, In p (patients s) -> pat_firstName p <> "" -> In p l).
Proof.
  split.
  - intros q Hne Hall. eexists. split.
    { unfold getPatients_search, gets. cbn [truthy opt_default].
      assert ((q =? "") = false) as -> by now apply String.eqb_neq.
      cbn [negb]. reflexivity. }
    intros p. rewrite in_order_by_desc, filter_In.
    split; [tauto|]. intros Hp. split; [exact Hp|].
    unfold patient_matches, ilike.
    rewrite (like_all_percent (lower_string (search_pattern q))); [reflexivity| |].
    + now apply only_percent_pattern.
    + rewrite lower_search_pattern. discriminate.
  - eexists. split.
    { unfold getPatients_search, gets. change (truthy (Some "_")) with true.
      cbv iota. cbn [opt_default]. reflexivity. }
    intros p Hp Hname. rewrite in_order_by_desc. apply filter_In. split; [exact Hp|].
    unfold patient_matches.
    assert (ilike (pat_firstName p) (search_pattern "_") = true) as ->; [|reflexivity].
    unfold ilike. change (lower_string (search_pattern "_")) with "%_%".
    destruct (pat_firstName p) as [|x name]; [now elim Hname|].
    cbn [lower_string]. apply like_percent_iff.
    exists "", (String (lower x) (lower_string name)). split; [reflexivity|].
    change (like "_%" (String (lower x) (lower_string name)))
      with (like "%" (lower_string name)).
    apply like_only_percent.
Qed.

Lemma getPatients_search_wildcards_witness :
  exists l, getPatients_search (Some "%") Sample2.two_patients = (Sample2.two_patients, Ok l) /\
            In Sample2.john l /\ In Sample2.jane l.
Proof.
  destruct (getPatients_search_wildcards Sample2.two_patients) as [Hall _].
  destruct (Hall "%") as (l & Hrun & Hiff).
  - discriminate.
  - reflexivity.
  - exists l. split; [exact Hrun|].
    split; apply Hiff; cbn; auto.
Defined.

(** ** Order of the listings *)

Section Descending.

Context {A : Type}.
Variable lt : A -> A -> bool.
Hypothesis lt_asym : forall x y, lt y x = true -> lt x y = false.
Hypothesis ge_trans : forall a b c, lt a b = false -> lt b c = false -> lt a c = false.

Lemma insert_desc_descending (x : A) (l : list A) :
  descending lt l -> descending lt (insert_desc lt x l).
Proof.
  induction l as [|y l IH]; cbn [insert_desc descending].
  - intros _. split; [intros z []|exact I].
  - intros [Hy Hl]. destruct (lt y x) eqn:E.
    + cbn [descending]. split; [|split; assumption].
      intros z [<-|Hz]; [now apply lt_asym|].
      apply (ge_trans x y z); [now apply lt_asym|now apply Hy].
    + cbn [descending]. split; [|now apply IH].
      intros z Hz.
      apply (Permutation_in _ (insert_desc_perm lt x l)) in Hz.
      destruct Hz as [<-|Hz]; [exact E|now apply Hy].
Qed.

Lemma order_by_desc_descending (l : list A) : descending lt (order_by_desc lt l).
Proof.
  unfold order_by_desc. induction l as [|x l IH]; cbn [fold_right].
  - exact I.
  - now apply insert_desc_descending.
Qed.

End Descending.

Lemma ts_lt_asym (a b : option timestamp) : ts_lt b a = true -> ts_lt a b = false.
Proof.
  destruct a as [x|], b as [y|]; cbn; try reflexivity; try discriminate.
  rewrite Z.ltb_lt, Z.ltb_ge. lia.
Qed.

Lemma ts_ge_trans (a b c : option timestamp) :
  ts_lt a b = false -> ts_lt b c = false -> ts_lt a c = false.
Proof.
  destruct a as [x|], b as [y|], c as [z|]; cbn; try reflexivity; try discriminate.
  rewrite !Z.ltb_ge. lia.
Qed.

(** X17.  [getPatients()] and [getAllUsers()] return every row of their table
    exactly once, newest first: no row is listed after one that was created
    earlier, and rows without [createdAt] come before all others. *)
Theorem listings_newest_first (s : Store) :
  (exists l, getPatients s = (s, Ok l) /\
             Permutation l (patients s) /\
             descending (fun a b => ts_lt (pat_createdAt a) (pat_createdAt b)) l) /\
  (exists l, getAllUsers s = (s, Ok l) /\
             Permutation l (users s) /\
             descending (fun a b => ts_lt (user_createdAt a) (user_createdAt b)) l).
Proof.
  split; eexists; (split; [reflexivity|]); (split; [apply order_by_desc_perm|]);
    apply order_by_desc_descending; intros;
    eauto using ts_lt_asym, ts_ge_trans.
Qed.

Lemma listings_newest_first_witness :
  exists l, getPatients Sample2.three_patients = (Sample2.three_patients, Ok l) /\
            l = [Sample2.carol; Sample2.bob; Sample.alice].
Proof.
  destruct (listings_newest_first Sample2.three_patients) as [(l & Hrun & _) _].
  exists l. split; [exact Hrun|]. vm_compute in Hrun. now injection Hrun as <-.
Defined.

(** ** Admissions in the listings *)

(** X18.  With beds and admissions in agreement: an admission created with
    the default status is listed by [getAdmissions("admitted")] and not by
    [getAdmissions("discharged")]; once discharged it is listed by
    [getAdmissions("discharged")] with its discharge date, and the listing
    for [admitted] holds no admission with its id any more. *)
Theorem admission_listing_lifecycle (s : Store) :
  admission_bed_invariant s ->
  (forall admission uuid now,
      has_key adm_id uuid (admissions s) = false ->
      has_key pat_id (ia_patientId admission) (patients s) = true ->
      has_key bed_id (ia_bedId admission) (beds s) = true ->
      fk_ok doc_id (ia_doctorId admission) (doctors s) = true ->
      ia_status admission = None ->
      exists s' adm admitted discharged,
        createAdmission admission uuid now s = (s', Ok adm) /\
        getAdmissions (Some "admitted") s' = (s', Ok admitted) /\
        getAdmissions (Some "discharged") s' = (s', Ok discharged) /\
        In adm (map adv_row admitted) /\
        ~ In adm (map adv_row discharged)) /\
  (forall a0 now,
      In a0 (admissions s) ->
      exists s' admitted discharged,
        dischargePatient (adm_id a0) now s = (s', Ok (Some (discharge_set now a0))) /\
        getAdmissions (Some "admitted") s' = (s', Ok admitted) /\
        getAdmissions (Some "discharged") s' = (s', Ok discharged) /\
        In (discharge_set now a0) (map adv_row discharged) /\
        adm_dischargeDate (discharge_set now a0) = Some now /\
        forall a, In a (map adv_row admitted) -> adm_id a <> adm_id a0).
Proof.
  intros Hinv. split.
  - intros admission uuid now Hfresh Hpat Hbed Hdoc Hstatus.
    set (s' := admitted_store s admission uuid now).
    destruct (listings_select s' (Some "admitted")) as (_ & _ & (adm_l & Hrun1 & Hrows1) & _).
    destruct (listings_select s' (Some "discharged")) as (_ & _ & (dis_l & Hrun2 & Hrows2) & _).
    exists s', (admission_row admission uuid now), adm_l, dis_l.
    split; [now apply createAdmission_ok|].
    split; [exact Hrun1|]. split; [exact Hrun2|].
    assert (adm_status (admission_row admission uuid now) = Some "admitted") as Hst
      by (cbn; now rewrite Hstatus).
    split.
    + apply Hrows1. split; [|intros _; exact Hst].
      cbn. apply in_or_app. right. left. reflexivity.
    + intros Hin. apply Hrows2 in Hin. destruct Hin as [_ Hd].
      rewrite Hst in Hd. specialize (Hd eq_refl). discriminate.
  - intros a0 now Hin0.
    set (s' := discharged_store s a0 now).
    destruct (listings_select s' (Some "admitted")) as (_ & _ & (adm_l & Hrun1 & Hrows1) & _).
    destruct (listings_select s' (Some "discharged")) as (_ & _ & (dis_l & Hrun2 & Hrows2) & _).
    exists s', adm_l, dis_l.
    split; [now apply dischargePatient_found|].
    split; [exact Hrun1|]. split; [exact Hrun2|].
    split; [|split; [reflexivity|]].
    + apply Hrows2. split; [now apply discharged_row_stored|reflexivity].
    + intros a Ha Hid. apply Hrows1 in Ha. destruct Ha as [Ha Hst].
      specialize (Hst eq_refl). cbn in Ha. apply in_update_where in Ha.
      destruct Ha as (r & Hr & ->).
      destruct (adm_id r =? adm_id a0) eqn:E.
      * cbn in Hst. discriminate.
      * apply String.eqb_neq in E. contradiction.
Qed.

Lemma admission_listing_lifecycle_witness :
  exists s' admitted discharged,
    dischargePatient "a1" 9%Z Sample.ward_store = (s', Ok (Some (discharge_set 9%Z Sample.stay1))) /\
    getAdmissions (Some "admitted") s' = (s', Ok admitted) /\
    getAdmissions (Some "discharged") s' = (s', Ok discharged) /\
    admitted = [] /\
    map adv_row discharged = [discharge_set 9%Z Sample.stay1].
Proof.
  destruct (admission_listing_lifecycle Sample.ward_store) as [_ Hdis].
  - apply check_invariant_sound. vm_compute. reflexivity.
  - destruct (Hdis Sample.stay1 9%Z) as (s' & a & d & Hrun & Ha & Hd & _).
    + left. reflexivity.
    + exists s', a, d. split; [exact Hrun|]. split; [exact Ha|]. split; [exact Hd|].
      vm_compute in Hrun. injection Hrun as <-.
      vm_compute in Ha. injection Ha as <-.
      vm_compute in Hd. injection Hd as <-.
      split; reflexivity.
Defined.

(** ** Looking a patient up *)

(** X19.  [GET /api/patients/:id] answers 404 [{error: "Patient not found"}]
    exactly when no patient has the id; otherwise it answers 200 with a
    patient that has this id (the stored one, ids being a primary key).  The
    store is never changed. *)
Theorem patient_lookup_404 (s : Store) (c : Context) (userId id : string) :
  (has_key pat_id id (patients s) = false <->
   handle c userId (GET_patients_id id) s =
     (s, mkResponse 404 (JError "Patient not found"))) /\
  (has_key pat_id id (patients s) = true <->
   exists p, handle c userId (GET_patients_id id) s = (s, mkResponse 200 (JPatient (Some p))) /\
             In p (patients s) /\ pat_id p = id) /\
  fst (handle c userId (GET_patients_id id) s) = s.
Proof.
  unfold handle, getPatient, gets.
  destruct (find (fun p => pat_id p =? id) (patients s)) as [p|] eqn:Hfind.
  - pose proof (find_some _ _ Hfind) as [Hin Heq]. apply String.eqb_eq in Heq.
    assert (has_key pat_id id (patients s) = true) as Hhas
      by (apply has_key_true; eauto).
    rewrite Hhas. split; [split; discriminate|]. split; [|reflexivity].
    split; [intros _; eauto|reflexivity].
  - apply find_key_none in Hfind. rewrite Hfind.
    split; [split; reflexivity|]. split; [|reflexivity].
    split; [discriminate|]. intros (p & H & _). discriminate.
Qed.

(** ** What the admission operations do not check *)

(** X20.  [createAdmission] does not look at the bed's status: whenever the
    insert passes its constraints it succeeds, also on a bed that is already
    occupied, and the bed then has one more [admitted] admission than before
    (status left at its default), so an occupied bed ends up with two. *)
Theorem createAdmission_allows_double_booking
  (s : Store) (admission : InsertAdmission) (uuid : string) (now : timestamp) :
  has_key adm_id uuid (admissions s) = false ->
  has_key pat_id (ia_patientId admission) (patients s) = true ->
  has_key bed_id (ia_bedId admission) (beds s) = true ->
  fk_ok doc_id (ia_doctorId admission) (doctors s) = true ->
  ia_status admission = None ->
  exists s' adm,
    createAdmission admission uuid now s = (s', Ok adm) /\
    admitted_count s' (ia_bedId admission) = admitted_count s (ia_bedId admission) + 1 /\
    (admitted_count s (ia_bedId admission) >= 1 -> ~ one_per_bed s').
Proof.
  intros Hfresh Hpat Hbed Hdoc Hstatus.
  eexists. eexists. split; [now apply createAdmission_ok|].
  assert (admitted_count (admitted_store s admission uuid now) (ia_bedId admission) =
          admitted_count s (ia_bedId admission) + 1) as Hcount.
  { unfold admitted_count. cbn [admissions admitted_store with_beds with_admissions].
    rewrite filter_app, length_app. cbn [filter].
    rewrite row_admitted_on by (now rewrite Hstatus).
    rewrite String.eqb_refl. reflexivity. }
  split; [exact Hcount|].
  intros Hge Hone. specialize (Hone (ia_bedId admission)). lia.
Qed.

Lemma createAdmission_double_booking_witness :
  exists s' adm,
    createAdmission Sample3.admit_b2 "a3" 7%Z Sample.ward_store = (s', Ok adm) /\
    admitted_count s' "b2" = 2.
Proof.
  destruct (createAdmission_allows_double_booking Sample.ward_store Sample3.admit_b2 "a3" 7%Z)
    as (s' & adm & Hrun & Hcount & _); try reflexivity.
  exists s', adm. split; [exact Hrun|]. exact Hcount.
Defined.

(** X21.  [dischargePatient] does not look at the admission's status: run on
    an admission that was already discharged it overwrites the discharge
    date and marks the bed [available] again, also when another admitted
    admission occupies that bed by now, which leaves an available bed with an
    admitted patient. *)
Theorem dischargePatient_again_frees_bed (s : Store) (a0 a1 : Admission) (now : timestamp) :
  admissions_pk s ->
  In a0 (admissions s) ->
  In a1 (admissions s) ->
  adm_id a1 <> adm_id a0 ->
  adm_bedId a1 = adm_bedId a0 ->
  adm_status a1 = Some "admitted" ->
  has_key bed_id (adm_bedId a0) (beds s) = true ->
  exists s' adm,
    dischargePatient (adm_id a0) now s = (s', Ok (Some adm)) /\
    adm_dischargeDate adm = Some now /\
    In a1 (admissions s') /\
    (forall bed, In bed (beds s') -> bed_id bed = adm_bedId a0 ->
                 bed_status bed = Some "available") /\
    ~ bed_sync s'.
Proof.
  intros Hpk Hin0 Hin1 Hneq Hsame Hadm Hbed.
  exists (discharged_store s a0 now), (discharge_set now a0).
  split.
  { unfold dischargePatient, bind, gets, modify, ret, returning. cbn.
    rewrite (pk_filter_single adm_id (admissions s) a0 Hpk Hin0). reflexivity. }
  split; [reflexivity|].
  assert (In a1 (admissions (discharged_store s a0 now))) as Hkept.
  { cbn. apply in_update_where. exists a1. split; [exact Hin1|].
    assert ((adm_id a1 =? adm_id a0) = false) as -> by now apply String.eqb_neq.
    reflexivity. }
  split; [exact Hkept|].
  split; [intros bed Hb Hid; now apply (discharged_store_bed_available s a0 now)|].
  intros Hsync.
  apply has_key_true in Hbed. destruct Hbed as (bed & Hb & Hid).
  specialize (Hsync (bed_set_status "available" bed)).
  destruct Hsync as [_ Hback].
  { cbn. apply in_update_where. exists bed. split; [exact Hb|].
    rewrite Hid. now rewrite String.eqb_refl. }
  assert (bed_status (bed_set_status "available" bed) = Some "occupied") as Hocc.
  { apply Hback. exists a1. split; [exact Hkept|]. split; [cbn; congruence|exact Hadm]. }
  discriminate.
Qed.

Lemma dischargePatient_again_witness :
  exists s' adm,
    dischargePatient "a0" 9%Z Sample3.reoccupied = (s', Ok (Some adm)) /\
    adm_dischargeDate adm = Some 9%Z /\
    ~ bed_sync s'.
Proof.
  destruct (dischargePatient_again_frees_bed Sample3.reoccupied Sample.stay0
              (mkAdmission "a2" "p1" "b1" None (Some 3%Z) None None None (Some "admitted")
                           (Some 3%Z)) 9%Z)
    as (s' & adm & Hrun & Hdate & _ & _ & Hbroken).
  - unfold admissions_pk. apply distinct_NoDup. reflexivity.
  - left. reflexivity.
  - right. left. reflexivity.
  - discriminate.
  - reflexivity.
  - reflexivity.
  - reflexivity.
  - exists s', adm. split; [exact Hrun|]. split; [exact Hdate|exact Hbroken].
Defined.

(** ** Bills in the listings *)



Lemma patient_lookup_404_witness :
  handle Sample.logged_in "u1" (GET_patients_id "p9") Sample.ward_store =
  (Sample.ward_store, mkResponse 404 (JError "Patient not found")).
Proof.
  apply (patient_lookup_404 Sample.ward_store Sample.logged_in "u1" "p9").
  reflexivity.
Defined.
